(** * SpendWise: the capability-scoped sandbox launcher

    A shallow embedding of [mcp_sandbox_openai_sdk/sandbox.py]
    ([SandboxedMCPStdio.__init__]) and of the factory
    [spendwise/mcp/travel_server.py] ([create_travel_mcp_server]), with the
    properties of the argument vector handed to the isolation runtime.

    Python values are modelled as follows: [str] as [string], [int] as [Z]
    (rendered in decimal by [str]), [os.environ] as a [gmap string string],
    the insertion-ordered [dict] of static variables as its list of items,
    [None]-able arguments as [option], exceptions as an error result, and
    the side effects of construction (consent prompts, printed lines) as
    fields of an explicit [World] threaded through a small state-and-error
    monad. *)

From Stdlib Require Import ZArith List Bool Lia.
From Stdlib Require Import Strings.String Strings.Ascii.
From stdpp Require Import gmap strings pretty.
Import ListNotations.

Local Open Scope string_scope.
Local Open Scope list_scope.

(** ** Data model *)

(** The capability categories a manifest may declare (the members of
    [Permission] that the repository's manifests use). *)
Inductive Permission :=
| MCP_AC_NETWORK_CLIENT
| MCP_AC_FILESYSTEM_READ
| MCP_AC_FILESYSTEM_WRITE
| MCP_AC_SYSTEM_ENV_READ.

Inductive Registry := NPM | PYPI.

(** The concrete runtime permissions, as the callers construct them:
    [DomainPort(domain=, port=)], [HostPort(host=, port=)],
    [FSAccess(path=, read=, write=)] with the optional [container_path]
    read by the builder, and [EnvironmentVariable(name=)]. A [host] is kept
    in the textual form [str] gives it inside the f-string (the factories
    pass an [IPv4Address] or a string). *)
Inductive RuntimePermission :=
| DomainPort (domain : string) (port : Z)
| HostPort (host : string) (port : Z)
| FSAccess (path : string) (container_path : option string) (read write : bool)
| EnvironmentVariable (name : string).

Record MCPManifest := {
  name : string;
  description : string;
  registry : Registry;
  package_name : string;
  permissions : list Permission
}.

(** [DevMCPManifest] is the subclass of [MCPManifest] that adds the local
    source mount and the override launch command. *)
Record DevMCPManifest := {
  dev_base : MCPManifest;
  code_mount : string;
  exec_command : string
}.

(** A manifest argument is an instance of one of the two classes;
    [isinstance(manifest, DevMCPManifest)] is the test on the constructor. *)
Inductive Manifest :=
| Plain (m : MCPManifest)
| Dev (d : DevMCPManifest).

Definition fields (manifest : Manifest) : MCPManifest :=
  match manifest with
  | Plain m => m
  | Dev d => dev_base d
  end.

Definition Permission_eqb (a b : Permission) : bool :=
  match a, b with
  | MCP_AC_NETWORK_CLIENT, MCP_AC_NETWORK_CLIENT
  | MCP_AC_FILESYSTEM_READ, MCP_AC_FILESYSTEM_READ
  | MCP_AC_FILESYSTEM_WRITE, MCP_AC_FILESYSTEM_WRITE
  | MCP_AC_SYSTEM_ENV_READ, MCP_AC_SYSTEM_ENV_READ => true
  | _, _ => false
  end.

(** Python's [x in perms]. *)
Definition declared (c : Permission) (perms : list Permission) : bool :=
  existsb (Permission_eqb c) perms.

(** Modelled from the spec: the category of a concrete permission.
    [runtime_permissions.py] is not among the sources; the spec maps every
    concrete permission to exactly one category, network egress to
    network-client, environment pass-through to system-environment-read, and
    filesystem access to filesystem-write or filesystem-read by its write
    flag (false = read-only). *)
Definition category (p : RuntimePermission) : Permission :=
  match p with
  | DomainPort _ _ => MCP_AC_NETWORK_CLIENT
  | HostPort _ _ => MCP_AC_NETWORK_CLIENT
  | FSAccess _ _ _ w => if w then MCP_AC_FILESYSTEM_WRITE else MCP_AC_FILESYSTEM_READ
  | EnvironmentVariable _ => MCP_AC_SYSTEM_ENV_READ
  end.

(** Modelled from the spec: [RuntimePermission.validate_with_manifest_perms]
    ([runtime_permissions.py] is not among the sources). A permission is
    covered when its category is present in the manifest's declared set. *)
Definition validate_with_manifest_perms
    (p : RuntimePermission) (perms : list Permission) : bool :=
  declared (category p) perms.

(** ** The host: state and effects *)

(** What construction can read or change on the host. [operator] is the
    consent source: its answer to the k-th prompt of this world, given the
    permission being described. [prompts] logs the consent requests issued
    and [stdout] the printed lines. [_sandbox_version] is the module-level
    global of [sandbox.py]; [fresh_id] is what [_id_generator()] yields. *)
Record World := {
  environ : gmap string string;
  paths : gset string;
  operator : nat -> RuntimePermission -> bool;
  prompts : list RuntimePermission;
  stdout : list string;
  _sandbox_version : string;
  fresh_id : string
}.

Inductive Exception :=
| InvalidRuntimePermission (perms : list Permission) (illegal : list RuntimePermission)
| ValueError (msg : string)
| FileNotFoundError (msg : string).

Inductive Result (A : Type) :=
| Return (a : A)
| Raise (e : Exception).
Arguments Return {A} a.
Arguments Raise {A} e.

(** State-and-error monad: an exception keeps the world reached so far. *)
Definition M (A : Type) : Type := World -> Result A * World.

Definition ret {A} (a : A) : M A := fun w => (Return a, w).

Definition raise {A} (e : Exception) : M A := fun w => (Raise e, w).

Definition bind {A B} (m : M A) (k : A -> M B) : M B :=
  fun w =>
    match m w with
    | (Return a, w') => k a w'
    | (Raise e, w') => (Raise e, w')
    end.

Notation "'let!' x ':=' m 'in' k" := (bind m (fun x => k))
  (at level 10, x name, m at level 100, k at level 200).
Notation "'do!' m 'in' k" := (bind m (fun _ => k))
  (at level 10, m at level 100, k at level 200).

Definition get_world : M World := fun w => (Return w, w).

(** [set_sandbox_version(version)]. *)
Definition set_sandbox_version (version : string) : M unit :=
  fun w =>
    (Return tt,
     {| environ := environ w; paths := paths w; operator := operator w;
        prompts := prompts w; stdout := stdout w;
        _sandbox_version := version; fresh_id := fresh_id w |}).

(** [print(line)]. *)
Definition print (line : string) : M unit :=
  fun w =>
    (Return tt,
     {| environ := environ w; paths := paths w; operator := operator w;
        prompts := prompts w; stdout := stdout w ++ [line];
        _sandbox_version := _sandbox_version w; fresh_id := fresh_id w |}).

Definition with_prompts (ps : list RuntimePermission) (w : World) : World :=
  {| environ := environ w; paths := paths w; operator := operator w;
     prompts := ps; stdout := stdout w;
     _sandbox_version := _sandbox_version w; fresh_id := fresh_id w |}.

(** Modelled from the spec: [RuntimePermission.get_user_consent]
    ([runtime_permissions.py] is not among the sources). One consent request
    is issued for the permission and the configured consent source decides;
    the permission itself is not changed. *)
Definition get_user_consent (p : RuntimePermission) : M bool :=
  fun w =>
    (Return (operator w (length (prompts w)) p),
     with_prompts (prompts w ++ [p]) w).

(** [[p for p in ps if p.get_user_consent()]]: the permissions are asked in
    order, one request each. *)
Fixpoint ask_consent (ps : list RuntimePermission) : M (list RuntimePermission) :=
  match ps with
  | [] => ret []
  | p :: rest =>
      let! ok := get_user_consent p in
      let! granted := ask_consent rest in
      ret (if ok then p :: granted else granted)
  end.

(** ** Rendering *)

(** [str(port)] of a Python [int]. *)
Definition str_int (n : Z) : string := pretty n.

(** [str(os.environ.get(name))] inside an f-string: [None] formats as the
    four letters of its name. *)
Definition str_optional (v : option string) : string :=
  match v with
  | Some s => s
  | None => "None"
  end.

(** Python's [a or b] on an optional string: [None] and the empty string are
    both falsy. *)
Definition or_else (a : option string) (b : string) : string :=
  match a with
  | Some s => if String.eqb s "" then b else s
  | None => b
  end.

(** Modelled from the spec: how a [Registry] member formats inside the image
    reference (the enum's declaration is not among the sources); the image is
    derived from the manifest's source registry. *)
Definition str_registry (r : Registry) : string :=
  match r with
  | NPM => "npm"
  | PYPI => "pypi"
  end.

(** ** The builder: [SandboxedMCPStdio.__init__] *)

(** The object handed to [MCPServerStdio.__init__]: nothing is launched at
    construction, the parameters are only stored. *)
Record SandboxedMCPStdio := {
  server_name : string;
  command : string;
  args : list string;
  client_session_timeout_seconds : Z
}.

(** Lines 53-60: the [domain:port] pairs of the consented [DomainPort]
    permissions, then the [host:port] pairs of the consented [HostPort]
    permissions, joined by commas. *)
Definition domain_pairs (consented_perms : list RuntimePermission) : list string :=
  flat_map (fun p => match p with
                     | DomainPort d port => [d +:+ ":" +:+ str_int port]
                     | _ => []
                     end) consented_perms.

Definition host_pairs (consented_perms : list RuntimePermission) : list string :=
  flat_map (fun p => match p with
                     | HostPort h port => [h +:+ ":" +:+ str_int port]
                     | _ => []
                     end) consented_perms.

Definition allowed_egress (consented_perms : list RuntimePermission) : string :=
  String.concat "," (domain_pairs consented_perms ++ host_pairs consented_perms).

(** Lines 62-73: the tokens added for a development manifest. *)
Definition add_args (manifest : Manifest) : list string :=
  match manifest with
  | Dev d =>
      ["--mount"; "type=bind,src=" +:+ code_mount d +:+ ",dst=/sandbox";
       "-e"; "PRE_INSTALLED=true";
       "-e"; "EXE=" +:+ exec_command d]
  | Plain _ => []
  end.

(** Lines 82-93: one [--mount] pair per consented [FSAccess]. *)
Definition mount_entry (path : string) (container_path : option string)
    (write : bool) : string :=
  "type=bind,src=" +:+ path +:+ ",dst=" +:+ or_else container_path path
    +:+ (if write then "" else ",readonly").

Definition fs_args (consented_perms : list RuntimePermission) : list string :=
  flat_map (fun fs => match fs with
                      | FSAccess path cp _ w => ["--mount"; mount_entry path cp w]
                      | _ => []
                      end) consented_perms.

(** Line 94: the allow-list is passed only when the string is truthy. *)
Definition egress_args (consented_perms : list RuntimePermission) : list string :=
  if String.eqb (allowed_egress consented_perms) "" then []
  else ["-e"; "ALLOWED_EGRESS=" +:+ allowed_egress consented_perms].

(** Lines 95-102: one [-e] pair per consented [EnvironmentVariable], the
    value read from the host environment. *)
Definition env_args (env : gmap string string)
    (consented_perms : list RuntimePermission) : list string :=
  flat_map (fun p => match p with
                     | EnvironmentVariable n => ["-e"; n +:+ "=" +:+ str_optional (env !! n)]
                     | _ => []
                     end) consented_perms.

(** Lines 103-106: one [-e] pair per item of [static_environment_vars]. *)
Definition static_args (static_environment_vars : list (string * string)) : list string :=
  flat_map (fun kv => ["-e"; fst kv +:+ "=" +:+ snd kv]) static_environment_vars.

(** Line 108. *)
Definition image_ref (manifest : Manifest) (version : string) : string :=
  "ghcr.io/guardiagent/mcp-sandbox-" +:+ str_registry (registry (fields manifest))
    +:+ ":" +:+ version.

(** The argument vector, segment by segment in the order of the source. *)
Definition build_args (manifest : Manifest) (runtime_args : option (list string))
    (consented_perms : list RuntimePermission)
    (static_environment_vars : list (string * string))
    (remove_container_after_run : bool)
    (env : gmap string string) (version : string) : list string :=
  ["run"]
  ++ (if remove_container_after_run then ["--rm"] else [])
  ++ ["-i"; "--cap-add=NET_ADMIN"; "-e";
      "PACKAGE=" +:+ package_name (fields manifest)]
  ++ fs_args consented_perms
  ++ egress_args consented_perms
  ++ env_args env consented_perms
  ++ static_args static_environment_vars
  ++ add_args manifest
  ++ [image_ref manifest version]
  ++ match runtime_args with
     | Some l => l
     | None => []
     end.

(** [name or f"{manifest.name} - {_id_generator()}"]. *)
Definition default_name (manifest : Manifest) (id : string) : string :=
  name (fields manifest) +:+ " - " +:+ id.

(** Lines 29-119. Validation comes first and raises before anything else
    happens; then each requested permission is put to the consent source;
    then the argument vector is composed and stored. *)
Definition __init__ (manifest : Manifest) (name : option string)
    (runtime_args : option (list string))
    (runtime_permissions : list RuntimePermission)
    (static_environment_vars : list (string * string))
    (client_session_timeout_seconds : Z)
    (remove_container_after_run : bool) : M SandboxedMCPStdio :=
  let illegal :=
    List.filter (fun p => negb (validate_with_manifest_perms p
                             (permissions (fields manifest))))
           runtime_permissions in
  match illegal with
  | _ :: _ =>
      raise (InvalidRuntimePermission (permissions (fields manifest)) illegal)
  | [] =>
      let! consented_perms := ask_consent runtime_permissions in
      let! w := get_world in
      ret {| server_name := or_else name (default_name manifest (fresh_id w));
             command := "docker";
             args := build_args manifest runtime_args consented_perms
                       static_environment_vars remove_container_after_run
                       (environ w) (_sandbox_version w);
             client_session_timeout_seconds := client_session_timeout_seconds |}
  end.

(** ** The factory: [create_travel_mcp_server] *)

Section Travel.

(** [TRAVEL_SERVER_PATH] is computed from the module's location on disk and
    [code_mount] from its resolution; both are fixed once the package is
    installed. *)
Variable TRAVEL_SERVER_PATH : string.
Variable TRAVEL_SERVER_PATH_resolved : string.

Definition travel_manifest : Manifest :=
  Dev {| dev_base :=
           {| name := "Travel API Server";
              description := "Flights, Hotels, Weather, Attractions - all in one";
              registry := PYPI;
              package_name := "mcp-server-travel";
              permissions := [MCP_AC_NETWORK_CLIENT; MCP_AC_SYSTEM_ENV_READ] |};
         code_mount := TRAVEL_SERVER_PATH_resolved;
         exec_command :=
           "sh -c 'pip install -q --break-system-packages /sandbox >&2 && python3 -m mcp_server_travel'" |}.

(** Truthiness of [os.environ.get(name)]: set and not empty. *)
Definition env_truthy (env : gmap string string) (n : string) : bool :=
  match env !! n with
  | Some v => negb (String.eqb v "")
  | None => false
  end.

(** [Path.exists()]. *)
Definition path_exists (w : World) (p : string) : bool :=
  bool_decide (p ∈ paths w).

Definition travel_runtime_perms (has_amadeus : bool) : list RuntimePermission :=
  [ DomainPort "test.api.amadeus.com" 443;
    DomainPort "api.amadeus.com" 443;
    DomainPort "amadeus-self-service-test.apigee.net" 443;
    DomainPort "amadeus-self-service.dn.apigee.net" 443;
    HostPort "3.72.68.174" 443;
    HostPort "3.120.238.1" 443;
    HostPort "3.254.195.161" 443;
    HostPort "18.158.72.68" 443;
    HostPort "18.193.119.72" 443;
    HostPort "18.194.228.233" 443;
    HostPort "34.241.251.57" 443;
    HostPort "35.159.123.231" 443;
    HostPort "63.179.6.145" 443;
    DomainPort "api.openweathermap.org" 443;
    DomainPort "overpass-api.de" 443;
    DomainPort "pypi.org" 443;
    DomainPort "files.pythonhosted.org" 443;
    EnvironmentVariable "OPENWEATHER_API_KEY" ]
  ++ (if has_amadeus
      then [EnvironmentVariable "AMADEUS_API_KEY";
            EnvironmentVariable "AMADEUS_API_SECRET"]
      else []).

Definition create_travel_mcp_server (name : string) : M SandboxedMCPStdio :=
  let! w := get_world in
  if negb (env_truthy (environ w) "OPENWEATHER_API_KEY") then
    raise (ValueError "Missing OPENWEATHER_API_KEY environment variable")
  else
    let has_amadeus :=
      env_truthy (environ w) "AMADEUS_API_KEY"
      && env_truthy (environ w) "AMADEUS_API_SECRET" in
    do! (if negb has_amadeus
         then print "Warning: Amadeus credentials not set - will use fallback estimates"
         else ret tt) in
    let! w := get_world in
    if negb (path_exists w TRAVEL_SERVER_PATH) then
      raise (FileNotFoundError ("Travel server not found at " +:+ TRAVEL_SERVER_PATH))
    else
      __init__ travel_manifest (Some name) (Some [])
        (travel_runtime_perms has_amadeus) [] 60 true.

End Travel.

(** ** Reading an argument vector by the runtime's argument grammar

    The isolation runtime is invoked as [run], then options, then the image
    reference, then the positional arguments of the container. [-e] and
    [--mount] take the next token as their value; any other token that starts
    with a dash is a single-token option; the first remaining token is the
    image. [docker_run] reads an argument vector back into the invocation it
    describes; it is the observer the properties below are stated with. *)

Record Invocation := {
  flags : list string;
  mounts : list string;
  env_vars : list string;
  image : string;
  arguments : list string
}.

Definition with_flag (f : string) (i : Invocation) : Invocation :=
  {| flags := f :: flags i; mounts := mounts i; env_vars := env_vars i;
     image := image i; arguments := arguments i |}.

Definition with_mount (m : string) (i : Invocation) : Invocation :=
  {| flags := flags i; mounts := m :: mounts i; env_vars := env_vars i;
     image := image i; arguments := arguments i |}.

Definition with_env (e : string) (i : Invocation) : Invocation :=
  {| flags := flags i; mounts := mounts i; env_vars := e :: env_vars i;
     image := image i; arguments := arguments i |}.

Fixpoint read_options (l : list string) : option Invocation :=
  match l with
  | [] => None
  | tok :: rest =>
      if String.eqb tok "-e" then
        match rest with
        | v :: rest' => option_map (with_env v) (read_options rest')
        | [] => None
        end
      else if String.eqb tok "--mount" then
        match rest with
        | v :: rest' => option_map (with_mount v) (read_options rest')
        | [] => None
        end
      else if String.prefix "-" tok then
        option_map (with_flag tok) (read_options rest)
      else
        Some {| flags := []; mounts := []; env_vars := []; image := tok;
                arguments := rest |}
  end.

Definition docker_run (argv : list string) : option Invocation :=
  match argv with
  | tok :: rest => if String.eqb tok "run" then read_options rest else None
  | [] => None
  end.

(** The variable a [NAME=value] assignment defines: the text before its
    first equals sign. *)
Fixpoint var_name (s : string) : string :=
  match s with
  | EmptyString => EmptyString
  | String c s' => if Ascii.eqb c "="%char then EmptyString else String c (var_name s')
  end.

(** The consent decisions of a run, as a pure function of the consent source:
    the permissions of [ps] granted when the first of them is prompt number
    [k]. *)
Fixpoint granted (op : nat -> RuntimePermission -> bool) (k : nat)
    (ps : list RuntimePermission) : list RuntimePermission :=
  match ps with
  | [] => []
  | p :: rest => if op k p then p :: granted op (S k) rest else granted op (S k) rest
  end.

Definition consented_of (w : World) (ps : list RuntimePermission) : list RuntimePermission :=
  granted (operator w) (length (prompts w)) ps.

(** The network endpoint a permission renders to, if it is a network one. *)
Definition endpoint (p : RuntimePermission) : option string :=
  match p with
  | DomainPort d port => Some (d +:+ ":" +:+ str_int port)
  | HostPort h port => Some (h +:+ ":" +:+ str_int port)
  | _ => None
  end.

Definition is_network (p : RuntimePermission) : bool :=
  match p with
  | DomainPort _ _ | HostPort _ _ => true
  | _ => false
  end.

(** ** The argument vector as a list of options *)

Inductive Opt :=
| Flag (s : string)
| Mount (v : string)
| Env (v : string).

Definition tokens (o : Opt) : list string :=
  match o with
  | Flag s => [s]
  | Mount v => ["--mount"; v]
  | Env v => ["-e"; v]
  end.

Definition render (os : list Opt) : list string := flat_map tokens os.

Definition mounts_of (os : list Opt) : list string :=
  flat_map (fun o => match o with Mount v => [v] | _ => [] end) os.

Definition envs_of (os : list Opt) : list string :=
  flat_map (fun o => match o with Env v => [v] | _ => [] end) os.

Definition flags_of (os : list Opt) : list string :=
  flat_map (fun o => match o with Flag s => [s] | _ => [] end) os.

Definition fs_mounts (consented_perms : list RuntimePermission) : list string :=
  flat_map (fun fs => match fs with
                      | FSAccess path cp _ w => [mount_entry path cp w]
                      | _ => []
                      end) consented_perms.

Definition egress_envs (consented_perms : list RuntimePermission) : list string :=
  if String.eqb (allowed_egress consented_perms) "" then []
  else ["ALLOWED_EGRESS=" +:+ allowed_egress consented_perms].

Definition passed_envs (env : gmap string string)
    (consented_perms : list RuntimePermission) : list string :=
  flat_map (fun p => match p with
                     | EnvironmentVariable n => [n +:+ "=" +:+ str_optional (env !! n)]
                     | _ => []
                     end) consented_perms.

Definition static_envs (static_environment_vars : list (string * string)) : list string :=
  map (fun kv => fst kv +:+ "=" +:+ snd kv) static_environment_vars.

Definition dev_mounts (manifest : Manifest) : list string :=
  match manifest with
  | Dev d => ["type=bind,src=" +:+ code_mount d +:+ ",dst=/sandbox"]
  | Plain _ => []
  end.

Definition dev_envs (manifest : Manifest) : list string :=
  match manifest with
  | Dev d => ["PRE_INSTALLED=true"; "EXE=" +:+ exec_command d]
  | Plain _ => []
  end.

Definition build_opts (manifest : Manifest)
    (consented_perms : list RuntimePermission)
    (static_environment_vars : list (string * string))
    (remove_container_after_run : bool)
    (env : gmap string string) : list Opt :=
  (if remove_container_after_run then [Flag "--rm"] else [])
  ++ [Flag "-i"; Flag "--cap-add=NET_ADMIN";
      Env ("PACKAGE=" +:+ package_name (fields manifest))]
  ++ map Mount (fs_mounts consented_perms)
  ++ map Env (egress_envs consented_perms)
  ++ map Env (passed_envs env consented_perms)
  ++ map Env (static_envs static_environment_vars)
  ++ map Mount (dev_mounts manifest)
  ++ map Env (dev_envs manifest).

Definition opt_ok (o : Opt) : bool :=
  match o with
  | Flag s => String.prefix "-" s && negb (String.eqb s "-e")
              && negb (String.eqb s "--mount")
  | _ => true
  end.

Definition collect (os : list Opt) (img : string) (rest : list string) : Invocation :=
  {| flags := flags_of os; mounts := mounts_of os; env_vars := envs_of os;
     image := img; arguments := rest |}.

Definition positional (runtime_args : option (list string)) : list string :=
  match runtime_args with
  | Some l => l
  | None => []
  end.

(** ** Vocabulary of the properties *)

(** Permission [p] was requested at position [i] of the list [P] handed to
    the builder in world [w], and the consent source granted that request. *)
Definition consented_at (w : World) (P : list RuntimePermission) (i : nat)
    (p : RuntimePermission) : Prop :=
  P !! i = Some p /\ operator w (length (prompts w) + i) p = true.

(** [p] passed both checks: the validation against the manifest's declared
    categories accepts it, and one of its requests was granted. *)
Definition authorised (manifest : Manifest) (w : World)
    (P : list RuntimePermission) (p : RuntimePermission) : Prop :=
  validate_with_manifest_perms p (permissions (fields manifest)) = true
  /\ exists i, consented_at w P i p.

Definition is_fs (p : RuntimePermission) : bool :=
  match p with
  | FSAccess _ _ _ _ => true
  | _ => false
  end.

(** The bind-mount entry of a filesystem permission in the words of the
    specification: host path to the override path when one is present (a
    non-empty string), else to the host path itself; read-only unless the
    write flag is set. *)
Definition bind_mount_for (p : RuntimePermission) (entry : string) : Prop :=
  match p with
  | FSAccess path cp _ write =>
      exists dst,
        match cp with
        | Some c => (c <> "" /\ dst = c) \/ (c = "" /\ dst = path)
        | None => dst = path
        end
        /\ ((write = false /\ entry = "type=bind,src=" +:+ path +:+ ",dst=" +:+ dst +:+ ",readonly")
            \/ (write = true /\ entry = "type=bind,src=" +:+ path +:+ ",dst=" +:+ dst))
  | _ => False
  end.

(** Every access of an invocation is backed by an authorised permission: each
    bind-mount by a filesystem permission, each environment assignment by an
    environment permission or, for the allow-list, by network permissions
    only. This is the property as the specification words it. *)
Definition every_access_authorised (manifest : Manifest) (w : World)
    (P : list RuntimePermission) (inv : Invocation) : Prop :=
  (forall m, In m (mounts inv) ->
     exists path cp r wr,
       authorised manifest w P (FSAccess path cp r wr)
       /\ m = mount_entry path cp wr)
  /\ (forall e, In e (env_vars inv) ->
        (exists n, authorised manifest w P (EnvironmentVariable n)
                   /\ e = n +:+ "=" +:+ str_optional (environ w !! n))
        \/ (exists items,
              e = "ALLOWED_EGRESS=" +:+ String.concat "," items
              /\ forall s, In s items ->
                   exists p, authorised manifest w P p /\ endpoint p = Some s)).

(** The invocation defines the allow-list variable. *)
Definition egress_flag_present (inv : Invocation) : Prop :=
  In "ALLOWED_EGRESS" (map var_name (env_vars inv)).

(** Later changes of the host environment: [os.environ[k] = v] and
    [os.environ.pop(k, None)]. *)
Inductive EnvUpdate :=
| SetEnv (k v : string)
| UnsetEnv (k : string).

Definition with_environ (e : gmap string string) (w : World) : World :=
  {| environ := e; paths := paths w; operator := operator w;
     prompts := prompts w; stdout := stdout w;
     _sandbox_version := _sandbox_version w; fresh_id := fresh_id w |}.

Definition with_paths (ps : gset string) (w : World) : World :=
  {| environ := environ w; paths := ps; operator := operator w;
     prompts := prompts w; stdout := stdout w;
     _sandbox_version := _sandbox_version w; fresh_id := fresh_id w |}.

Definition apply_update (u : EnvUpdate) : M unit :=
  fun w =>
    (Return tt,
     with_environ (match u with
                   | SetEnv k v => <[k:=v]> (environ w)
                   | UnsetEnv k => delete k (environ w)
                   end) w).

Fixpoint apply_updates (us : list EnvUpdate) : M unit :=
  match us with
  | [] => ret tt
  | u :: rest => do! apply_update u in apply_updates rest
  end.

(** The permissions the validation rejects, and the object construction
    returns when there is none. *)
Definition offending (manifest : Manifest) (P : list RuntimePermission) :
    list RuntimePermission :=
  List.filter (fun p => negb (validate_with_manifest_perms p
                                (permissions (fields manifest)))) P.

Definition built (manifest : Manifest) (name : option string)
    (runtime_args : option (list string)) (P : list RuntimePermission)
    (senv : list (string * string)) (tmo : Z) (rm : bool) (w : World) :
    SandboxedMCPStdio :=
  {| server_name := or_else name (default_name manifest (fresh_id w));
     command := "docker";
     args := build_args manifest runtime_args (consented_of w P) senv rm
               (environ w) (_sandbox_version w);
     client_session_timeout_seconds := tmo |}.

Definition with_operator (op : nat -> RuntimePermission -> bool) (w : World) : World :=
  {| environ := environ w; paths := paths w; operator := op;
     prompts := prompts w; stdout := stdout w;
     _sandbox_version := _sandbox_version w; fresh_id := fresh_id w |}.

(** The six tokens a development manifest adds. *)
Definition dev_tokens (d : DevMCPManifest) : list string :=
  ["--mount"; "type=bind,src=" +:+ code_mount d +:+ ",dst=/sandbox";
   "-e"; "PRE_INSTALLED=true";
   "-e"; "EXE=" +:+ exec_command d].

(** The line the travel factory prints when the Amadeus credentials are
    not both set. *)
Definition amadeus_warning : string :=
  "Warning: Amadeus credentials not set - will use fallback estimates".

(** ** Concrete inputs used by the examples *)

Definition deny_all : nat -> RuntimePermission -> bool := fun _ _ => false.
Definition allow_all : nat -> RuntimePermission -> bool := fun _ _ => true.

Definition host (env : gmap string string) (ps : gset string)
    (op : nat -> RuntimePermission -> bool) : World :=
  {| environ := env; paths := ps; operator := op; prompts := []; stdout := [];
     _sandbox_version := "latest"; fresh_id := "a1b2c3" |}.

Definition manifest_with (perms : list Permission) : MCPManifest :=
  {| name := "Example Server"; description := "An example tool server";
     registry := NPM; package_name := "example-pkg"; permissions := perms |}.

Definition dev_manifest_with (perms : list Permission) : DevMCPManifest :=
  {| dev_base := manifest_with perms; code_mount := "/home/dev/example";
     exec_command := "python3 -m example" |}.

(** A consent source that grants the first request only. *)
Definition first_only : nat -> RuntimePermission -> bool :=
  fun k _ => Nat.eqb k 0.

(** A consent source that grants everything but write access. *)
Definition no_writes : nat -> RuntimePermission -> bool :=
  fun _ p => match p with
             | FSAccess _ _ _ true => false
             | _ => true
             end.

Definition network_manifest : Manifest :=
  Plain (manifest_with [MCP_AC_NETWORK_CLIENT]).

Definition network_request : list RuntimePermission :=
  [DomainPort "db.example.com" 443; HostPort "10.1.2.3" 5432].

Definition fs_manifest : Manifest :=
  Dev (dev_manifest_with [MCP_AC_FILESYSTEM_READ; MCP_AC_FILESYSTEM_WRITE]).

Definition fs_request : list RuntimePermission :=
  [FSAccess "/srv/db" None true false;
   FSAccess "/srv/cache" (Some "/cache") true true;
   FSAccess "/srv/in" (Some "/in") true false].

Definition env_manifest : Manifest :=
  Plain (manifest_with [MCP_AC_SYSTEM_ENV_READ]).

Definition env_request : list RuntimePermission :=
  [EnvironmentVariable "API_KEY"].

Definition mixed_manifest : Manifest :=
  Dev (dev_manifest_with
         [MCP_AC_NETWORK_CLIENT; MCP_AC_FILESYSTEM_READ; MCP_AC_SYSTEM_ENV_READ]).

Definition mixed_request : list RuntimePermission :=
  [DomainPort "db.example.com" 443;
   FSAccess "/srv/db" None true false;
   EnvironmentVariable "HOME"].

Definition home_env : gmap string string := <["HOME" := "/root"]> ∅.

Definition weather_env : gmap string string :=
  <["OPENWEATHER_API_KEY" := "k-123"]> ∅.

(** ** The other factories: [create_sms_mcp_server], [create_stock_mcp_server]

    [sms_server.py] and [stock_server.py] follow the shape of the travel
    factory: a check of the environment, a check of the server path, then
    the builder with a fixed list of requests. *)

Section DevFactories.

(** [SMS_SERVER_PATH] and [STOCK_SERVER_PATH] are computed from the module's
    location on disk, the [code_mount] of each manifest from its
    resolution. *)
Variable SMS_SERVER_PATH : string.
Variable SMS_SERVER_PATH_resolved : string.
Variable STOCK_SERVER_PATH : string.
Variable STOCK_SERVER_PATH_resolved : string.

Definition sms_manifest : Manifest :=
  Dev {| dev_base :=
           {| name := "SpendWise SMS Server";
              description := "Send SMS via Twilio with AI agents";
              registry := PYPI;
              package_name := "mcp-server-sms";
              permissions := [MCP_AC_NETWORK_CLIENT; MCP_AC_SYSTEM_ENV_READ] |};
         code_mount := SMS_SERVER_PATH_resolved;
         exec_command :=
           "sh -c 'pip install -q --break-system-packages /sandbox >&2 && python3 -m mcp_server_sms'" |}.

Definition required_vars : list string :=
  ["TWILIO_ACCOUNT_SID"; "TWILIO_AUTH_TOKEN"; "TWILIO_PHONE_NUMBER"].

(** [[var for var in required_vars if not os.environ.get(var)]]. *)
Definition missing_vars (env : gmap string string) : list string :=
  List.filter (fun var => negb (env_truthy env var)) required_vars.

Definition sms_runtime_perms : list RuntimePermission :=
  [ DomainPort "api.twilio.com" 443;
    DomainPort "pypi.org" 443;
    DomainPort "files.pythonhosted.org" 443;
    EnvironmentVariable "TWILIO_ACCOUNT_SID";
    EnvironmentVariable "TWILIO_AUTH_TOKEN";
    EnvironmentVariable "TWILIO_PHONE_NUMBER";
    EnvironmentVariable "NOTIFICATION_PHONE" ].

Definition create_sms_mcp_server (name : string) : M SandboxedMCPStdio :=
  let! w := get_world in
  match missing_vars (environ w) with
  | _ :: _ =>
      raise (ValueError ("Missing environment variables: "
                         +:+ String.concat ", " (missing_vars (environ w))))
  | [] =>
      if negb (path_exists w SMS_SERVER_PATH) then
        raise (FileNotFoundError ("SMS server not found at " +:+ SMS_SERVER_PATH))
      else
        __init__ sms_manifest (Some name) (Some []) sms_runtime_perms [] 60 true
  end.

Definition stock_manifest : Manifest :=
  Dev {| dev_base :=
           {| name := "SpendWise Stock Server";
              description := "Stock market data and trading via FMP API + MockBank";
              registry := PYPI;
              package_name := "mcp-server-stock";
              permissions := [MCP_AC_NETWORK_CLIENT; MCP_AC_SYSTEM_ENV_READ] |};
         code_mount := STOCK_SERVER_PATH_resolved;
         exec_command :=
           "sh -c 'pip install -q --break-system-packages /sandbox >&2 && python3 -m mcp_server_stock'" |}.

Definition stock_runtime_perms : list RuntimePermission :=
  [ DomainPort "financialmodelingprep.com" 443;
    DomainPort "host.docker.internal" 8080;
    HostPort "127.0.0.1" 8080;
    DomainPort "pypi.org" 443;
    DomainPort "files.pythonhosted.org" 443;
    EnvironmentVariable "FMP_API_KEY" ].

Definition create_stock_mcp_server (name : string) : M SandboxedMCPStdio :=
  let! w := get_world in
  if negb (env_truthy (environ w) "FMP_API_KEY") then
    raise (ValueError "Missing environment variable: FMP_API_KEY")
  else if negb (path_exists w STOCK_SERVER_PATH) then
    raise (FileNotFoundError ("Stock server not found at " +:+ STOCK_SERVER_PATH))
  else
    __init__ stock_manifest (Some name) (Some []) stock_runtime_perms [] 60 true.

End DevFactories.

(** ** The database factory: [create_sqlite_mcp_server] *)

(** The factory can fail in [Path.mkdir] before the builder runs; such an
    [OSError] is kept apart from the builder's own outcome. *)
Inductive SqliteOutcome :=
| MkdirError (msg : string)
| Constructed (r : Result SandboxedMCPStdio).

Section SQLite.

(** The operations of [pathlib] the factory uses are those of the Python
    library and of the host's filesystem: [resolve] is
    [str(Path(p).resolve())] on the given host, [parent] is
    [str(Path(p).parent)], and [mkdir_parents] is
    [Path(p).mkdir(parents=True, exist_ok=True)], which either raises an
    [OSError] (its message is the first component) or returns, and in both
    cases leaves the host in the world it yields. *)
Variable resolve : World -> string -> string.
Variable parent : string -> string.
Variable mkdir_parents : string -> World -> option string * World.

Definition sqlite_manifest : Manifest :=
  Plain {| name := "SQLite MCP Server";
           description := "MCP server for SQLite database operations.";
           registry := NPM;
           package_name := "mcp-server-sqlite-npx";
           permissions := [MCP_AC_FILESYSTEM_READ; MCP_AC_FILESYSTEM_WRITE] |}.

(** [f"SQLite ({'RO' if readonly else 'RW'})"]. *)
Definition sqlite_default_name (readonly : bool) : string :=
  "SQLite (" +:+ (if readonly then "RO" else "RW") +:+ ")".

Definition create_sqlite_mcp_server (db_path : string) (readonly : bool)
    (name : option string) : World -> SqliteOutcome * World :=
  fun w =>
    let db_path := resolve w db_path in
    let db_dir := parent db_path in
    let db_file := db_path in
    match mkdir_parents db_dir w with
    | (Some err, w1) => (MkdirError err, w1)
    | (None, w1) =>
        let runtime_perms := [FSAccess db_dir None true (negb readonly)] in
        let name := match name with
                    | None => sqlite_default_name readonly
                    | Some n => n
                    end in
        let (r, w2) := __init__ sqlite_manifest (Some name) (Some [db_file])
                         runtime_perms [] 60 true w1 in
        (Constructed r, w2)
    end.

End SQLite.

(** ** Vocabulary of the further properties *)

(** [l1] is [l2] with some elements left out, order kept. *)
Inductive subsequence {A : Type} : list A -> list A -> Prop :=
| subsequence_nil : subsequence [] []
| subsequence_skip x l1 l2 : subsequence l1 l2 -> subsequence l1 (x :: l2)
| subsequence_keep x l1 l2 : subsequence l1 l2 -> subsequence (x :: l1) (x :: l2).

(** The allow-list assignment of a list of pairs: none when there is no
    pair. *)
Definition allow_list_entry (pairs : list string) : list string :=
  match pairs with
  | [] => []
  | _ :: _ => ["ALLOWED_EGRESS=" +:+ String.concat "," pairs]
  end.

(** Hosts and stand-ins for the filesystem operations used in the
    examples. *)
Definition twilio_env : gmap string string :=
  <["TWILIO_ACCOUNT_SID" := "AC123"]>
    (<["TWILIO_AUTH_TOKEN" := "tok"]>
       (<["TWILIO_PHONE_NUMBER" := "+15550100"]> ∅)).

Definition fmp_env : gmap string string := <["FMP_API_KEY" := "fmp-1"]> ∅.

Definition resolve_id : World -> string -> string := fun _ p => p.

Definition parent_of_example : string -> string := fun _ => "/data".

Definition mkdir_ok : string -> World -> option string * World :=
  fun dir w => (None, with_paths ({[dir]} ∪ paths w) w).

Definition mkdir_denied : string -> World -> option string * World :=
  fun dir w => (Some ("[Errno 13] Permission denied: '" +:+ dir +:+ "'"), w).

(** ** Vocabulary of the revised properties *)

(** Reading a decimal numeral: an optional minus sign, then digits. This is
    written apart from the renderer [str_int]. *)
Definition digit_value (c : ascii) : option N :=
  if Ascii.eqb c "0" then Some 0%N
  else if Ascii.eqb c "1" then Some 1%N
  else if Ascii.eqb c "2" then Some 2%N
  else if Ascii.eqb c "3" then Some 3%N
  else if Ascii.eqb c "4" then Some 4%N
  else if Ascii.eqb c "5" then Some 5%N
  else if Ascii.eqb c "6" then Some 6%N
  else if Ascii.eqb c "7" then Some 7%N
  else if Ascii.eqb c "8" then Some 8%N
  else if Ascii.eqb c "9" then Some 9%N
  else None.

Fixpoint read_digits (acc : N) (s : string) : option N :=
  match s with
  | EmptyString => Some acc
  | String c s' =>
      match digit_value c with
      | Some d => read_digits (acc * 10 + d)%N s'
      | None => None
      end
  end.

Definition read_decimal (s : string) : option Z :=
  match s with
  | EmptyString => None
  | String c s' =>
      if Ascii.eqb c "-" then
        if String.eqb s' "" then None
        else option_map (fun n => Z.opp (Z.of_N n)) (read_digits 0%N s')
      else option_map Z.of_N (read_digits 0%N s)
  end.

Definition is_domain (p : RuntimePermission) : bool :=
  match p with
  | DomainPort _ _ => true
  | _ => false
  end.

Definition is_host (p : RuntimePermission) : bool :=
  match p with
  | HostPort _ _ => true
  | _ => false
  end.

Definition is_env (p : RuntimePermission) : bool :=
  match p with
  | EnvironmentVariable _ => true
  | _ => false
  end.

(** The allow-list pair of a network permission in the words of the
    specification: the domain or host, a colon, and the port as a decimal
    numeral. *)
Definition pair_for (p : RuntimePermission) (s : string) : Prop :=
  match p with
  | DomainPort d port =>
      exists t, s = d +:+ ":" +:+ t /\ read_decimal t = Some port
  | HostPort h port =>
      exists t, s = h +:+ ":" +:+ t /\ read_decimal t = Some port
  | _ => False
  end.

(** The assignment of an environment permission: its name, an equals sign,
    and a text that is the host's value whenever the host has one. What the
    text is for a variable the host lacks is left open here. *)
Definition assignment_for (env : gmap string string) (p : RuntimePermission)
    (e : string) : Prop :=
  match p with
  | EnvironmentVariable n =>
      exists t, e = n +:+ "=" +:+ t /\ forall v, env !! n = Some v -> t = v
  | _ => False
  end.

(** The assignments of an invocation that define the allow-list variable. *)
Definition allow_list_assignments (inv : Invocation) : list string :=
  List.filter (fun e => String.eqb (var_name e) "ALLOWED_EGRESS") (env_vars inv).


(** A consent source that denies filesystem access and grants the rest. *)
Definition deny_files : nat -> RuntimePermission -> bool :=
  fun _ p => negb (is_fs p).


(** The invocation [inv] serves the permission [p]: a filesystem permission
    has its bind mount among the mounts, a network permission its pair among
    the items of an allow-list assignment, an environment permission its
    assignment among the environment variables. *)
Definition served (env : gmap string string) (inv : Invocation)
    (p : RuntimePermission) : Prop :=
  match p with
  | FSAccess _ _ _ _ => exists m, In m (mounts inv) /\ bind_mount_for p m
  | EnvironmentVariable _ =>
      exists e, In e (env_vars inv) /\ assignment_for env p e
  | DomainPort _ _ | HostPort _ _ =>
      exists s pairs,
        pair_for p s /\ In s pairs
        /\ In ("ALLOWED_EGRESS=" +:+ String.concat "," pairs) (env_vars inv)
  end.
(** ** Lemmas on the reader *)

Lemma no_dash_not_option img :
  String.prefix "-" img = false ->
  String.eqb img "-e" = false /\ String.eqb img "--mount" = false.
Proof.
  destruct img as [|a s]; [split; reflexivity|].
  cbn [String.prefix]. destruct (ascii_dec "-" a) as [<-|Hne].
  - destruct s; discriminate.
  - intros _. cbn [String.eqb].
    destruct (Ascii.eqb_spec a "-"%char) as [->|_]; [congruence|].
    split; reflexivity.
Qed.

Lemma read_options_render os img rest :
  forallb opt_ok os = true ->
  String.prefix "-" img = false ->
  read_options (render os ++ img :: rest) = Some (collect os img rest).
Proof.
  intros Hos Himg. induction os as [|o os IH].
  - cbn [render flat_map app read_options].
    destruct (no_dash_not_option img Himg) as [-> ->]. rewrite Himg.
    reflexivity.
  - cbn [forallb] in Hos. apply andb_prop in Hos as [Ho Hos].
    specialize (IH Hos). destruct o as [s|v|v].
    + cbn [opt_ok] in Ho.
      apply andb_prop in Ho as [Ho Hm]. apply andb_prop in Ho as [Hp He].
      apply negb_true_iff in He, Hm.
      change (render (Flag s :: os) ++ img :: rest)
        with (s :: (render os ++ img :: rest)).
      cbn [read_options]. rewrite He, Hm, Hp, IH. reflexivity.
    + change (render (Mount v :: os) ++ img :: rest)
        with ("--mount" :: v :: (render os ++ img :: rest)).
      cbn [read_options]. rewrite IH. reflexivity.
    + change (render (Env v :: os) ++ img :: rest)
        with ("-e" :: v :: (render os ++ img :: rest)).
      cbn [read_options]. rewrite IH. reflexivity.
Qed.

Lemma render_app os1 os2 : render (os1 ++ os2) = render os1 ++ render os2.
Proof. apply flat_map_app. Qed.

Lemma render_map_Mount l :
  render (map Mount l) = flat_map (fun v => ["--mount"; v]) l.
Proof. induction l as [|v l IH]; [reflexivity|]. cbn. now rewrite <- IH. Qed.

Lemma render_map_Env l :
  render (map Env l) = flat_map (fun v => ["-e"; v]) l.
Proof. induction l as [|v l IH]; [reflexivity|]. cbn. now rewrite <- IH. Qed.

Lemma fs_args_render c : fs_args c = render (map Mount (fs_mounts c)).
Proof.
  induction c as [|p c IH]; [reflexivity|].
  destruct p; cbn; try exact IH. f_equal. f_equal. exact IH.
Qed.

Lemma env_args_render env c : env_args env c = render (map Env (passed_envs env c)).
Proof.
  induction c as [|p c IH]; [reflexivity|].
  destruct p; cbn; try exact IH. f_equal. f_equal. exact IH.
Qed.

Lemma static_args_render s : static_args s = render (map Env (static_envs s)).
Proof.
  induction s as [|kv s IH]; [reflexivity|]. cbn. f_equal. f_equal. exact IH.
Qed.

Lemma egress_args_render c : egress_args c = render (map Env (egress_envs c)).
Proof.
  unfold egress_args, egress_envs.
  destruct (String.eqb (allowed_egress c) ""); reflexivity.
Qed.

Lemma add_args_render manifest :
  add_args manifest
  = render (map Mount (dev_mounts manifest) ++ map Env (dev_envs manifest)).
Proof. destruct manifest; reflexivity. Qed.

Lemma build_args_render manifest runtime_args c senv rm env version :
  build_args manifest runtime_args c senv rm env version
  = "run" :: render (build_opts manifest c senv rm env)
      ++ image_ref manifest version :: positional runtime_args.
Proof.
  unfold build_args, build_opts.
  rewrite fs_args_render, egress_args_render, (env_args_render env),
    static_args_render, add_args_render.
  rewrite !render_app.
  destruct rm; cbn [app render flat_map tokens];
    rewrite <- ?app_assoc; reflexivity.
Qed.

Lemma mounts_of_app os1 os2 : mounts_of (os1 ++ os2) = mounts_of os1 ++ mounts_of os2.
Proof. apply flat_map_app. Qed.

Lemma envs_of_app os1 os2 : envs_of (os1 ++ os2) = envs_of os1 ++ envs_of os2.
Proof. apply flat_map_app. Qed.

Lemma mounts_of_Mount l : mounts_of (map Mount l) = l.
Proof. induction l as [|v l IH]; [reflexivity|]. cbn. now f_equal. Qed.

Lemma mounts_of_Env l : mounts_of (map Env l) = [].
Proof. induction l as [|v l IH]; [reflexivity|]. exact IH. Qed.

Lemma envs_of_Env l : envs_of (map Env l) = l.
Proof. induction l as [|v l IH]; [reflexivity|]. cbn. now f_equal. Qed.

Lemma envs_of_Mount l : envs_of (map Mount l) = [].
Proof. induction l as [|v l IH]; [reflexivity|]. exact IH. Qed.

Lemma flags_of_app os1 os2 : flags_of (os1 ++ os2) = flags_of os1 ++ flags_of os2.
Proof. apply flat_map_app. Qed.

Lemma flags_of_Mount l : flags_of (map Mount l) = [].
Proof. induction l as [|v l IH]; [reflexivity|]. exact IH. Qed.

Lemma flags_of_Env l : flags_of (map Env l) = [].
Proof. induction l as [|v l IH]; [reflexivity|]. exact IH. Qed.

Lemma forallb_opt_ok_Mount l : forallb opt_ok (map Mount l) = true.
Proof. induction l; [reflexivity|assumption]. Qed.

Lemma forallb_opt_ok_Env l : forallb opt_ok (map Env l) = true.
Proof. induction l; [reflexivity|assumption]. Qed.

Lemma build_opts_ok manifest c senv rm env :
  forallb opt_ok (build_opts manifest c senv rm env) = true.
Proof.
  unfold build_opts.
  rewrite !forallb_app, !forallb_opt_ok_Mount, !forallb_opt_ok_Env.
  destruct rm; reflexivity.
Qed.

Lemma image_ref_no_dash manifest version :
  String.prefix "-" (image_ref manifest version) = false.
Proof. reflexivity. Qed.

(** The mounts and the environment assignments the runtime reads from a
    built argument vector, segment by segment. *)
Lemma docker_run_build_args manifest runtime_args c senv rm env version :
  docker_run (build_args manifest runtime_args c senv rm env version)
  = Some {| flags := (if rm then ["--rm"] else []) ++ ["-i"; "--cap-add=NET_ADMIN"];
            mounts := fs_mounts c ++ dev_mounts manifest;
            env_vars := ("PACKAGE=" +:+ package_name (fields manifest))
                        :: egress_envs c ++ passed_envs env c
                           ++ static_envs senv ++ dev_envs manifest;
            image := image_ref manifest version;
            arguments := positional runtime_args |}.
Proof.
  rewrite build_args_render.
  change (docker_run ("run" :: ?l)) with (read_options l).
  rewrite read_options_render
    by (apply build_opts_ok || apply image_ref_no_dash).
  unfold collect, build_opts. f_equal. f_equal.
  - rewrite !flags_of_app, !flags_of_Mount, !flags_of_Env.
    destruct rm; reflexivity.
  - rewrite !mounts_of_app, !mounts_of_Mount, !mounts_of_Env.
    destruct rm; cbn [mounts_of flat_map app]; now rewrite ?app_nil_r.
  - rewrite !envs_of_app, !envs_of_Env, !envs_of_Mount.
    destruct rm; cbn [envs_of flat_map app]; now rewrite ?app_nil_r.
Qed.

(** ** Lemmas on consent and construction *)

Lemma with_prompts_same w : with_prompts (prompts w) w = w.
Proof. destruct w; reflexivity. Qed.

Lemma ask_consent_spec ps w :
  ask_consent ps w
  = (Return (consented_of w ps), with_prompts (prompts w ++ ps) w).
Proof.
  unfold consented_of. revert w. induction ps as [|p ps IH]; intros w.
  - cbn. now rewrite app_nil_r, with_prompts_same.
  - cbn [ask_consent]. unfold bind at 1. cbn [get_user_consent].
    unfold bind at 1. rewrite IH. cbn [with_prompts prompts operator].
    rewrite length_app, Nat.add_1_r. cbn [granted ret].
    rewrite <- app_assoc. reflexivity.
Qed.

Lemma granted_lookup op k ps p :
  In p (granted op k ps) <-> exists i, ps !! i = Some p /\ op (k + i) p = true.
Proof.
  revert k. induction ps as [|q ps IH]; intros k; cbn [granted].
  - split; [intros []|intros (i & Hi & _); destruct i; discriminate].
  - split.
    + intros H. destruct (op k q) eqn:Hq.
      * destruct H as [->|H].
        -- exists 0. rewrite Nat.add_0_r. split; [reflexivity|assumption].
        -- apply IH in H as (i & Hi & Hop). exists (S i).
           rewrite Nat.add_succ_r. split; assumption.
      * apply IH in H as (i & Hi & Hop). exists (S i).
        rewrite Nat.add_succ_r. split; assumption.
    + intros (i & Hi & Hop). destruct i as [|i].
      * cbn in Hi. injection Hi as ->. rewrite Nat.add_0_r in Hop.
        rewrite Hop. now left.
      * cbn in Hi. rewrite Nat.add_succ_r in Hop.
        assert (In p (granted op (S k) ps)) by (apply IH; eauto).
        destruct (op k q); [now right|assumption].
Qed.

Lemma consented_of_lookup w P p :
  In p (consented_of w P) <-> exists i, consented_at w P i p.
Proof. apply granted_lookup. Qed.

Lemma granted_allow_all k ps : granted allow_all k ps = ps.
Proof.
  revert k. induction ps as [|p ps IH]; intros k; [reflexivity|].
  cbn. now rewrite IH.
Qed.

Lemma Permission_eqb_eq a b : Permission_eqb a b = true <-> a = b.
Proof. destruct a, b; cbn; split; congruence. Qed.

Lemma declared_In c perms : declared c perms = true <-> In c perms.
Proof.
  unfold declared. rewrite existsb_exists. split.
  - intros (x & Hx & Heq). apply Permission_eqb_eq in Heq. now subst.
  - intros H. exists c. split; [assumption|now apply Permission_eqb_eq].
Qed.

(** The two outcomes of construction. *)
Lemma init_cases manifest name runtime_args P senv tmo rm w :
  (offending manifest P = []
   /\ __init__ manifest name runtime_args P senv tmo rm w
      = (Return (built manifest name runtime_args P senv tmo rm w),
         with_prompts (prompts w ++ P) w))
  \/ (offending manifest P <> []
      /\ __init__ manifest name runtime_args P senv tmo rm w
         = (Raise (InvalidRuntimePermission (permissions (fields manifest))
                     (offending manifest P)), w)).
Proof.
  unfold __init__. fold (offending manifest P).
  destruct (offending manifest P) as [|p l] eqn:Hoff.
  - left. split; [reflexivity|].
    unfold bind at 1. rewrite ask_consent_spec.
    unfold bind, get_world, ret, built. reflexivity.
  - right. split; [discriminate|reflexivity].
Qed.

Lemma init_returns manifest name runtime_args P senv tmo rm w srv w' :
  __init__ manifest name runtime_args P senv tmo rm w = (Return srv, w') ->
  offending manifest P = []
  /\ srv = built manifest name runtime_args P senv tmo rm w
  /\ w' = with_prompts (prompts w ++ P) w.
Proof.
  intros H.
  destruct (init_cases manifest name runtime_args P senv tmo rm w)
    as [[Hoff Heq]|[_ Heq]]; rewrite Heq in H.
  - injection H as <- <-. auto.
  - discriminate.
Qed.

Lemma offending_In manifest P p :
  In p (offending manifest P)
  <-> In p P /\ ~ In (category p) (permissions (fields manifest)).
Proof.
  unfold offending, validate_with_manifest_perms. rewrite filter_In.
  rewrite negb_true_iff, <- declared_In, not_true_iff_false. reflexivity.
Qed.

(** Validation passes exactly when the check accepts every request. *)
Lemma offending_nil_valid manifest P :
  offending manifest P = []
  <-> forall p, In p P ->
        validate_with_manifest_perms p (permissions (fields manifest)) = true.
Proof.
  unfold offending. induction P as [|q P IH]; cbn [List.filter].
  - split; [intros _ p []|reflexivity].
  - destruct (validate_with_manifest_perms q (permissions (fields manifest)))
      eqn:Hq; cbn [negb].
    + rewrite IH. split.
      * intros H p [<-|Hp]; [assumption|now apply H].
      * intros H p Hp. apply H. now right.
    + split; [discriminate|]. intros H.
      rewrite (H q (or_introl eq_refl)) in Hq. discriminate.
Qed.

Lemma offending_nil manifest P :
  offending manifest P = []
  <-> forall p, In p P -> In (category p) (permissions (fields manifest)).
Proof.
  split.
  - intros Hnil p Hp.
    destruct (declared (category p) (permissions (fields manifest))) eqn:Hd.
    + now apply declared_In.
    + assert (In p (offending manifest P)) as Hin.
      { apply offending_In. split; [assumption|].
        rewrite <- declared_In. congruence. }
      rewrite Hnil in Hin. destruct Hin.
  - intros Hall. destruct (offending manifest P) as [|p l] eqn:Hoff; [reflexivity|].
    assert (In p (offending manifest P)) as Hin by (rewrite Hoff; now left).
    apply offending_In in Hin as [Hp Hn]. destruct Hn. now apply Hall.
Qed.

(** ** Validation (C1) *)

(** C1. Construction raises the invalid-permission error exactly when some
    requested permission has a category that the manifest does not declare.
    When it raises, the error carries the manifest's declared categories and
    exactly the uncovered permissions, in request order, and the world is
    left as it was: no consent request has been issued and no server object
    (hence nothing to launch) is returned. When it does not raise no
    permission is uncovered, and an empty request list never raises. *)
Theorem invalid_permission_iff manifest name runtime_args P senv tmo rm w :
  let perms := permissions (fields manifest) in
  let r := __init__ manifest name runtime_args P senv tmo rm w in
  ((exists illegal, fst r = Raise (InvalidRuntimePermission perms illegal))
   <-> (exists p, In p P /\ ~ In (category p) perms))
  /\ match r with
     | (Raise e, w') =>
         e = InvalidRuntimePermission perms (offending manifest P)
         /\ (forall p, In p (offending manifest P)
                       <-> In p P /\ ~ In (category p) perms)
         /\ w' = w
     | (Return srv, _) => offending manifest P = []
     end
  /\ (exists srv, fst (__init__ manifest name runtime_args [] senv tmo rm w)
                  = Return srv).
Proof.
  intros perms r. subst perms r.
  destruct (init_cases manifest name runtime_args P senv tmo rm w)
    as [[Hoff Heq]|[Hoff Heq]]; rewrite Heq; cbn [fst snd].
  - split; [|split].
    + split.
      * intros (illegal & Habs). discriminate.
      * intros (p & Hp & Hn).
        assert (In p (offending manifest P)) as Hin by (now apply offending_In).
        rewrite Hoff in Hin. destruct Hin.
    + exact Hoff.
    + destruct (init_cases manifest name runtime_args [] senv tmo rm w)
        as [[_ H0]|[H0 _]]; [rewrite H0; eauto|now destruct H0].
  - split; [|split].
    + split.
      * intros _. destruct (offending manifest P) as [|p l] eqn:E; [congruence|].
        exists p. apply offending_In. rewrite E. now left.
      * intros _. eauto.
    + split; [reflexivity|]. split; [|reflexivity].
      intros p. apply offending_In.
    + destruct (init_cases manifest name runtime_args [] senv tmo rm w)
        as [[_ H0]|[H0 _]]; [rewrite H0; eauto|now destruct H0].
Qed.

(** The scenario of the specification: a manifest declaring filesystem-read
    only and a request for write access. Validation fails, names the write
    permission, and no prompt is issued. *)
Example write_request_rejected :
  __init__ (Plain (manifest_with [MCP_AC_FILESYSTEM_READ])) None None
    [FSAccess "/data" None true true] [] 60 true (host ∅ ∅ allow_all)
  = (Raise (InvalidRuntimePermission [MCP_AC_FILESYSTEM_READ]
              [FSAccess "/data" None true true]),
     host ∅ ∅ allow_all).
Proof. reflexivity. Qed.

(** ** Lemmas on the segments *)

Lemma lookup_In (P : list RuntimePermission) i p : P !! i = Some p -> In p P.
Proof. intros H. apply list_elem_of_In. eapply list_elem_of_lookup_2, H. Qed.

Lemma consented_authorised manifest w P i p :
  offending manifest P = [] ->
  consented_at w P i p ->
  authorised manifest w P p.
Proof.
  intros Hoff Hc. split; [|eauto].
  apply (proj1 (offending_nil_valid manifest P) Hoff).
  destruct Hc as [Hl _]. eapply lookup_In, Hl.
Qed.

Lemma In_fs_mounts c m :
  In m (fs_mounts c)
  <-> exists path cp r wr, In (FSAccess path cp r wr) c /\ m = mount_entry path cp wr.
Proof.
  unfold fs_mounts. rewrite in_flat_map. split.
  - intros (p & Hp & Hm). destruct p; cbn in Hm; try contradiction.
    destruct Hm as [<-|[]]. eauto 6.
  - intros (path & cp & r & wr & Hp & ->). eexists. split; [exact Hp|]. now left.
Qed.

Lemma In_passed_envs env c e :
  In e (passed_envs env c)
  <-> exists n, In (EnvironmentVariable n) c /\ e = n +:+ "=" +:+ str_optional (env !! n).
Proof.
  unfold passed_envs. rewrite in_flat_map. split.
  - intros (p & Hp & He). destruct p; cbn in He; try contradiction.
    destruct He as [<-|[]]. eauto.
  - intros (n & Hp & ->). eexists. split; [exact Hp|]. now left.
Qed.

Lemma In_static_envs senv e :
  In e (static_envs senv) <-> exists k v, In (k, v) senv /\ e = k +:+ "=" +:+ v.
Proof.
  unfold static_envs. rewrite in_map_iff. split.
  - intros ([k v] & <- & H). eauto.
  - intros (k & v & H & ->). exists (k, v). auto.
Qed.

Lemma In_pairs c s :
  In s (domain_pairs c ++ host_pairs c)
  <-> exists p, In p c /\ endpoint p = Some s.
Proof.
  rewrite in_app_iff. unfold domain_pairs, host_pairs. rewrite !in_flat_map.
  split.
  - intros [(p & Hp & Hs)|(p & Hp & Hs)]; destruct p; cbn in Hs;
      try contradiction;
      destruct Hs as [<-|[]]; eexists; (split; [exact Hp|reflexivity]).
  - intros (p & Hp & Hs). destruct p; try discriminate;
      injection Hs as <-; [left|right]; eexists; (split; [exact Hp|now left]).
Qed.

Lemma pairs_permutation c :
  domain_pairs c ++ host_pairs c ≡ₚ omap endpoint c.
Proof.
  induction c as [|p c IH]; [reflexivity|].
  destruct p; cbn; try exact IH.
  - now constructor.
  - rewrite <- IH. symmetry. apply Permutation_middle.
Qed.

Lemma pairs_nil_iff c :
  domain_pairs c ++ host_pairs c = []
  <-> ~ exists p, In p c /\ is_network p = true.
Proof.
  split.
  - intros Hnil (p & Hp & Hn).
    destruct (endpoint p) as [s|] eqn:Hs; [|destruct p; discriminate].
    assert (In s (domain_pairs c ++ host_pairs c)) as Hin by (apply In_pairs; eauto).
    rewrite Hnil in Hin. destruct Hin.
  - intros Hno. destruct (domain_pairs c ++ host_pairs c) as [|s l] eqn:E; [reflexivity|].
    destruct Hno. assert (In s (domain_pairs c ++ host_pairs c)) as Hin
      by (rewrite E; now left).
    apply In_pairs in Hin as (p & Hp & Hs). exists p. split; [assumption|].
    destruct p; try discriminate; reflexivity.
Qed.

Lemma pair_not_empty a n : a +:+ ":" +:+ n <> "".
Proof. destruct a; discriminate. Qed.

Lemma In_pairs_not_empty c s :
  In s (domain_pairs c ++ host_pairs c) -> s <> "".
Proof.
  intros H. apply In_pairs in H as (p & _ & Hs).
  destruct p; try discriminate; injection Hs as <-; apply pair_not_empty.
Qed.

Lemma concat_not_empty sep x l : x <> "" -> String.concat sep (x :: l) <> "".
Proof.
  intros Hx. cbn [String.concat]. destruct l; [assumption|].
  destruct x; [congruence|discriminate].
Qed.

(** The allow-list is the empty string exactly when there is no pair. *)
Lemma allowed_egress_empty c :
  String.eqb (allowed_egress c) "" = true
  <-> domain_pairs c ++ host_pairs c = [].
Proof.
  unfold allowed_egress. rewrite String.eqb_eq.
  destruct (domain_pairs c ++ host_pairs c) as [|s l] eqn:E.
  - split; reflexivity.
  - split; [|discriminate]. intros Habs. exfalso.
    refine (concat_not_empty "," s l _ Habs).
    apply (In_pairs_not_empty c). rewrite E. now left.
Qed.

Lemma egress_envs_cases c :
  egress_envs c
  = match domain_pairs c ++ host_pairs c with
    | [] => []
    | _ :: _ =>
        ["ALLOWED_EGRESS="
           +:+ String.concat "," (domain_pairs c ++ host_pairs c)]
    end.
Proof.
  unfold egress_envs.
  destruct (String.eqb (allowed_egress c) "") eqn:E.
  - apply allowed_egress_empty in E. now rewrite E.
  - unfold allowed_egress.
    destruct (domain_pairs c ++ host_pairs c) eqn:E'; [|reflexivity].
    apply allowed_egress_empty in E'. congruence.
Qed.

Lemma classic_network c :
  (exists p, In p c /\ is_network p = true)
  \/ ~ (exists p, In p c /\ is_network p = true).
Proof.
  induction c as [|q c [IH|IH]].
  - right. intros (p & [] & _).
  - left. destruct IH as (p & Hp & Hn). exists p. split; [now right|assumption].
  - destruct (is_network q) eqn:Hq.
    + left. exists q. split; [now left|assumption].
    + right. intros (p & [->|Hp] & Hn); [congruence|]. apply IH. eauto.
Qed.

Lemma append_empty_r (s : string) : s +:+ "" = s.
Proof.
  induction s as [|a s IH]; [reflexivity|].
  change (String a (s +:+ "") = String a s). now f_equal.
Qed.

Lemma mount_entry_spec path cp r wr :
  bind_mount_for (FSAccess path cp r wr) (mount_entry path cp wr).
Proof.
  unfold bind_mount_for, mount_entry. exists (or_else cp path). split.
  - destruct cp as [c|]; [|reflexivity]. cbn [or_else].
    destruct (String.eqb_spec c ""); [right|left]; auto.
  - destruct wr; [right|left]; split; try reflexivity.
    now rewrite append_empty_r.
Qed.

Lemma fs_mounts_spec c :
  Forall2 bind_mount_for (List.filter is_fs c) (fs_mounts c).
Proof.
  induction c as [|p c IH]; [constructor|].
  destruct p; cbn; try exact IH.
  constructor; [apply mount_entry_spec|exact IH].
Qed.

Lemma init_valid manifest name runtime_args P senv tmo rm w :
  (forall p, In p P ->
     validate_with_manifest_perms p (permissions (fields manifest)) = true) ->
  __init__ manifest name runtime_args P senv tmo rm w
  = (Return (built manifest name runtime_args P senv tmo rm w),
     with_prompts (prompts w ++ P) w).
Proof.
  intros Hall. apply offending_nil_valid in Hall.
  destruct (init_cases manifest name runtime_args P senv tmo rm w)
    as [[_ H]|[Hne _]]; [exact H|congruence].
Qed.

Lemma init_returns_valid manifest name runtime_args P senv tmo rm w srv w' :
  __init__ manifest name runtime_args P senv tmo rm w = (Return srv, w') ->
  forall p, In p P ->
    validate_with_manifest_perms p (permissions (fields manifest)) = true.
Proof.
  intros H. apply init_returns in H as (Hoff & _).
  now apply offending_nil_valid.
Qed.

Lemma var_name_assign n v : var_name (n +:+ "=" +:+ v) = var_name n.
Proof.
  induction n as [|a n IH]; [reflexivity|].
  change (var_name (String a (n +:+ "=" +:+ v)) = var_name (String a n)).
  cbn [var_name]. now rewrite IH.
Qed.

Lemma granted_In op k ps p : In p (granted op k ps) -> In p ps.
Proof.
  intros H. apply granted_lookup in H as (i & Hi & _). eapply lookup_In, Hi.
Qed.

Lemma subsequence_refl {A} (l : list A) : subsequence l l.
Proof. induction l; constructor; assumption. Qed.

Lemma subsequence_app {A} (a1 a2 b1 b2 : list A) :
  subsequence a1 a2 -> subsequence b1 b2 -> subsequence (a1 ++ b1) (a2 ++ b2).
Proof. intros Ha Hb. induction Ha; cbn; try constructor; assumption. Qed.

Lemma subsequence_flat_map {A B} (f : A -> list B) l1 l2 :
  subsequence l1 l2 -> subsequence (flat_map f l1) (flat_map f l2).
Proof.
  intros H. induction H; cbn.
  - constructor.
  - change (flat_map f l1) with ([] ++ flat_map f l1).
    apply subsequence_app; [|assumption].
    induction (f x); constructor; assumption.
  - apply subsequence_app; [apply subsequence_refl|assumption].
Qed.

Lemma subsequence_In {A} (l1 l2 : list A) x :
  subsequence l1 l2 -> In x l1 -> In x l2.
Proof.
  intros H. induction H; intros Hin.
  - assumption.
  - right. auto.
  - destruct Hin as [->|Hin]; [now left|right; auto].
Qed.

Lemma granted_subsequence op k ps : subsequence (granted op k ps) ps.
Proof.
  revert k. induction ps as [|p ps IH]; intros k; cbn [granted].
  - constructor.
  - destruct (op k p); constructor; apply IH.
Qed.

(** ** Lemmas on decimal text and on the readback *)

Lemma digit_value_char d :
  (d < 10)%N -> digit_value (pretty_N_char d) = Some d.
Proof.
  intros H.
  assert (d = 0 \/ d = 1 \/ d = 2 \/ d = 3 \/ d = 4 \/ d = 5 \/ d = 6
          \/ d = 7 \/ d = 8 \/ d = 9)%N as Hd by lia.
  repeat (destruct Hd as [-> | Hd]; [reflexivity|]). subst d. reflexivity.
Qed.

Lemma read_digits_pretty_N_go x s :
  read_digits 0 (pretty_N_go x s) = read_digits x s.
Proof.
  revert s. induction (N.lt_wf_0 x) as [x _ IH]. intros s.
  assert (x = 0 \/ 0 < x)%N as [-> | Hpos] by lia.
  - now rewrite pretty_N_go_0.
  - rewrite pretty_N_go_step by assumption.
    rewrite IH by (apply N.div_lt; [assumption|reflexivity]).
    cbn [read_digits].
    rewrite digit_value_char by (apply N.mod_lt; discriminate).
    f_equal. rewrite N.mul_comm. symmetry. apply N.div_mod. discriminate.
Qed.

Lemma read_digits_positive p :
  read_digits 0 (pretty (Npos p)) = Some (Npos p)
  /\ pretty (Npos p) <> ""
  /\ forall s, pretty (Npos p) <> String "-" s.
Proof.
  assert (read_digits 0 (pretty (Npos p)) = Some (Npos p)) as Hread.
  { unfold pretty, pretty_N. destruct (decide (Npos p = 0%N)); [discriminate|].
    apply read_digits_pretty_N_go. }
  split; [exact Hread|]. split.
  - intros Habs. rewrite Habs in Hread. discriminate.
  - intros s Habs. rewrite Habs in Hread. discriminate.
Qed.

(** The port text the builder writes reads back as the port. *)
Lemma read_decimal_str_int n : read_decimal (str_int n) = Some n.
Proof.
  unfold str_int, pretty, pretty_Z. destruct n as [|p|p].
  - reflexivity.
  - destruct (read_digits_positive p) as (Hread & Hne & Hdash).
    change (pretty p) with (pretty (Npos p)).
    destruct (pretty (Npos p)) as [|c s] eqn:E; [congruence|].
    unfold read_decimal. destruct (Ascii.eqb_spec c "-") as [-> | _].
    + now destruct (Hdash s).
    + now rewrite Hread.
  - destruct (read_digits_positive p) as (Hread & Hne & _).
    change (pretty p) with (pretty (Npos p)).
    change ("-" +:+ pretty (Npos p)) with (String "-" (pretty (Npos p))).
    unfold read_decimal. rewrite Ascii.eqb_refl.
    destruct (String.eqb_spec (pretty (Npos p)) ""); [congruence|].
    now rewrite Hread.
Qed.

Lemma domain_pairs_spec c :
  Forall2 pair_for (List.filter is_domain c) (domain_pairs c).
Proof.
  induction c as [|p c IH]; [constructor|].
  destruct p; cbn; try exact IH.
  constructor; [|exact IH].
  eexists. split; [reflexivity|apply read_decimal_str_int].
Qed.

Lemma host_pairs_spec c :
  Forall2 pair_for (List.filter is_host c) (host_pairs c).
Proof.
  induction c as [|p c IH]; [constructor|].
  destruct p; cbn; try exact IH.
  constructor; [|exact IH].
  eexists. split; [reflexivity|apply read_decimal_str_int].
Qed.

Lemma pairs_spec c :
  Forall2 pair_for (List.filter is_domain c ++ List.filter is_host c)
    (domain_pairs c ++ host_pairs c).
Proof. apply Forall2_app; [apply domain_pairs_spec|apply host_pairs_spec]. Qed.

Lemma passed_envs_spec env c :
  Forall2 (assignment_for env) (List.filter is_env c) (passed_envs env c).
Proof.
  induction c as [|p c IH]; [constructor|].
  destruct p; cbn; try exact IH.
  constructor; [|exact IH].
  eexists. split; [reflexivity|]. intros v Hv. now rewrite Hv.
Qed.

Lemma filter_none {A} (f : A -> bool) l :
  (forall x, In x l -> f x = false) -> List.filter f l = [].
Proof.
  induction l as [|a l IH]; intros H; [reflexivity|]. cbn.
  rewrite (H a (or_introl eq_refl)). apply IH. intros x Hx. apply H. now right.
Qed.

Lemma filter_cons_false {A} (f : A -> bool) a l :
  f a = false -> List.filter f (a :: l) = List.filter f l.
Proof. intros H. cbn. now rewrite H. Qed.

Lemma dev_envs_var_names manifest e :
  In e (dev_envs manifest) -> var_name e = "PRE_INSTALLED" \/ var_name e = "EXE".
Proof.
  destruct manifest as [m|d]; cbn [dev_envs]; [intros []|].
  intros [<-|[<-|[]]]; [left|right]; reflexivity.
Qed.



(** ** The egress allow-list (C3) *)

(** C3, as stated, fails: a static environment variable named
    [ALLOWED_EGRESS] gives the built invocation a second allow-list
    assignment, after the builder's own, and its pair belongs to a
    permission that was never requested. *)
Lemma second_allow_list_assignment :
  let w := host ∅ ∅ allow_all in
  let P := [DomainPort "db.example.com" 443] in
  let senv := [("ALLOWED_EGRESS", "0.0.0.0:1")] in
  exists srv w' inv,
    __init__ network_manifest None None P senv 60 true w = (Return srv, w')
    /\ docker_run (args srv) = Some inv
    /\ env_vars inv
       = ["PACKAGE=example-pkg"; "ALLOWED_EGRESS=db.example.com:443";
          "ALLOWED_EGRESS=0.0.0.0:1"]
    /\ ~ (exists i p, P !! i = Some p /\ pair_for p "0.0.0.0:1").
Proof.
  intros w P senv. do 3 eexists.
  split; [reflexivity|]. split; [reflexivity|]. split; [reflexivity|].
  intros (i & p & Hi & Hp). destruct i as [|i]; [|destruct i; discriminate].
  injection Hi as <-. destruct Hp as (t & Ht & _).
  change ("0.0.0.0:1" = String "d" ("b.example.com" +:+ ":" +:+ t)) in Ht.
  discriminate.
Qed.

(** C3, amended. Provided no consented environment permission and no static
    environment variable is named [ALLOWED_EGRESS] (a name is read up to its
    first equals sign), the allow-list of a built invocation is the
    comma-join of the pairs of the consented network permissions, domains
    first and then hosts, each pair being the domain or host, a colon and
    the port as a decimal numeral. The consented permissions are exactly the
    granted requests, so no pair stems from a denied or never-requested
    permission. The invocation assigns the allow-list variable once, to that
    string, and not at all when there is no pair. *)
Theorem egress_allow_list manifest name runtime_args P senv tmo rm w srv w' :
  __init__ manifest name runtime_args P senv tmo rm w = (Return srv, w') ->
  (forall i n, consented_at w P i (EnvironmentVariable n) ->
               var_name n <> "ALLOWED_EGRESS") ->
  (forall k v, In (k, v) senv -> var_name k <> "ALLOWED_EGRESS") ->
  let c := consented_of w P in
  let pairs := domain_pairs c ++ host_pairs c in
  allowed_egress c = String.concat "," pairs
  /\ Forall2 pair_for (List.filter is_domain c ++ List.filter is_host c) pairs
  /\ pairs ≡ₚ omap endpoint c
  /\ (forall p, In p c <-> exists i, consented_at w P i p)
  /\ (forall s, In s pairs
                <-> exists i p, consented_at w P i p /\ endpoint p = Some s)
  /\ exists inv,
       docker_run (args srv) = Some inv
       /\ allow_list_assignments inv
          = match pairs with
            | [] => []
            | _ :: _ => ["ALLOWED_EGRESS=" +:+ String.concat "," pairs]
            end
       /\ env_vars inv
          = ("PACKAGE=" +:+ package_name (fields manifest))
            :: match pairs with
               | [] => []
               | _ :: _ => ["ALLOWED_EGRESS=" +:+ String.concat "," pairs]
               end
            ++ passed_envs (environ w) c ++ static_envs senv
            ++ dev_envs manifest.
Proof.
  intros H Henv Hstatic c pairs. apply init_returns in H as (_ & -> & _).
  split; [reflexivity|]. split; [apply pairs_spec|].
  split; [apply pairs_permutation|].
  split; [intros p; apply consented_of_lookup|]. split.
  - intros s. subst pairs. rewrite In_pairs. split.
    + intros (p & Hp & Hs). apply consented_of_lookup in Hp as (i & Hi). eauto.
    + intros (i & p & Hi & Hs). exists p. split; [|assumption].
      apply consented_of_lookup. eauto.
  - eexists. split; [apply docker_run_build_args|].
    cbn [env_vars]. fold c. rewrite egress_envs_cases. fold pairs.
    split; [|reflexivity].
    unfold allow_list_assignments. cbn [env_vars].
    rewrite filter_cons_false by reflexivity.
    rewrite List.filter_app.
    rewrite (filter_none _ (passed_envs (environ w) c ++ static_envs senv
                            ++ dev_envs manifest)).
    + rewrite app_nil_r. destruct pairs; reflexivity.
    + intros e He. apply String.eqb_neq. intros Hname.
      rewrite !in_app_iff in He. destruct He as [He|[He|He]].
      * apply In_passed_envs in He as (n & Hn & ->).
        rewrite var_name_assign in Hname.
        apply consented_of_lookup in Hn as (i & Hi). now apply (Henv i n Hi).
      * apply In_static_envs in He as (k & v & Hkv & ->).
        rewrite var_name_assign in Hname. now apply (Hstatic k v Hkv).
      * apply dev_envs_var_names in He as [He|He]; rewrite He in Hname;
          discriminate.
Qed.

(** Two network requests of which the consent source grants the first: the
    allow-list is [db.example.com:443]. *)
Lemma egress_allow_list_witness :
  let w := host ∅ ∅ first_only in
  let c := consented_of w network_request in
  let pairs := domain_pairs c ++ host_pairs c in
  __init__ network_manifest None None network_request [("TZ", "UTC")] 60 true w
  = (Return (built network_manifest None None network_request [("TZ", "UTC")]
               60 true w),
     with_prompts network_request w)
  /\ allowed_egress c = "db.example.com:443"
  /\ Forall2 pair_for (List.filter is_domain c ++ List.filter is_host c)
       ["db.example.com:443"]
  /\ pairs ≡ₚ omap endpoint c
  /\ (forall p, In p c <-> exists i, consented_at w network_request i p)
  /\ (forall s, In s pairs
                <-> exists i p, consented_at w network_request i p
                                /\ endpoint p = Some s)
  /\ exists inv,
       docker_run
         (args (built network_manifest None None network_request
                  [("TZ", "UTC")] 60 true w))
       = Some inv
       /\ allow_list_assignments inv = ["ALLOWED_EGRESS=db.example.com:443"]
       /\ env_vars inv
          = ["PACKAGE=example-pkg"; "ALLOWED_EGRESS=db.example.com:443";
             "TZ=UTC"].
Proof.
  intros w c pairs. split; [reflexivity|].
  refine (egress_allow_list network_manifest None None network_request
            [("TZ", "UTC")] 60 true w _ _ eq_refl _ _).
  - intros i n [Hl _].
    destruct i as [|[|i]]; cbn in Hl; discriminate.
  - intros k v [Hkv|[]]. injection Hkv as <- <-. discriminate.
Defined.

(** The scenario of the specification: the manifest declares network-client,
    the single domain permission [db.example.com:443] is requested and
    granted; the allow-list string is exactly that pair. *)
Example single_domain_egress :
  let w := host ∅ ∅ allow_all in
  let P := [DomainPort "db.example.com" 443] in
  allowed_egress (consented_of w P) = "db.example.com:443"
  /\ option_map env_vars
       (docker_run (args (built network_manifest None None P [] 60 true w)))
     = Some ["PACKAGE=example-pkg"; "ALLOWED_EGRESS=db.example.com:443"].
Proof. split; reflexivity. Qed.

(** A denied permission leaves no pair: of the two requests of
    [network_request] only the first is granted. *)
Example denied_host_absent :
  allowed_egress (consented_of (host ∅ ∅ first_only) network_request)
  = "db.example.com:443".
Proof. reflexivity. Qed.

(** ** Bind mounts (C4) *)

(** C4. The mounts the runtime reads from a built invocation are one entry per
    consented filesystem permission, in request order, followed by the
    source mount of a development manifest when there is one. The entry of a
    permission binds its host path to its override container path when one
    is present (a non-empty string) and to the host path itself otherwise,
    and carries the [readonly] mark exactly when the write flag is unset. *)
Theorem one_mount_per_fs_permission
    manifest name runtime_args P senv tmo rm w srv w' :
  __init__ manifest name runtime_args P senv tmo rm w = (Return srv, w') ->
  exists inv entries,
    docker_run (args srv) = Some inv
    /\ mounts inv = entries ++ dev_mounts manifest
    /\ Forall2 bind_mount_for (List.filter is_fs (consented_of w P)) entries.
Proof.
  intros H. apply init_returns in H as (_ & -> & _).
  eexists. exists (fs_mounts (consented_of w P)).
  split; [apply docker_run_build_args|]. split; [reflexivity|].
  apply fs_mounts_spec.
Qed.

(** Three filesystem requests under a development manifest, write access
    denied. *)
Lemma one_mount_per_fs_permission_witness :
  let w := host ∅ ∅ no_writes in
  __init__ fs_manifest None None fs_request [] 60 true w
  = (Return (built fs_manifest None None fs_request [] 60 true w),
     with_prompts fs_request w)
  /\ exists inv entries,
       docker_run (args (built fs_manifest None None fs_request [] 60 true w))
       = Some inv
       /\ mounts inv = entries ++ dev_mounts fs_manifest
       /\ Forall2 bind_mount_for
            (List.filter is_fs (consented_of w fs_request)) entries.
Proof.
  intros w. split; [reflexivity|].
  exact (one_mount_per_fs_permission fs_manifest None None fs_request [] 60
           true w _ _ eq_refl).
Defined.

(** The mounts of [fs_request] when write access is denied: the read-only
    mount of the host path onto itself, the read-only mount onto the
    override path, and the development source mount. *)
Example fs_request_mounts :
  option_map mounts
    (docker_run
       (args (built fs_manifest None None fs_request [] 60 true
                (host ∅ ∅ no_writes))))
  = Some ["type=bind,src=/srv/db,dst=/srv/db,readonly";
          "type=bind,src=/srv/in,dst=/in,readonly";
          "type=bind,src=/home/dev/example,dst=/sandbox"].
Proof. reflexivity. Qed.

(** With the write flag set and consent given the entry has no [readonly]
    mark. *)
Example writable_mount :
  option_map mounts
    (docker_run
       (args (built fs_manifest None None fs_request [] 60 true
                (host ∅ ∅ allow_all))))
  = Some ["type=bind,src=/srv/db,dst=/srv/db,readonly";
          "type=bind,src=/srv/cache,dst=/cache";
          "type=bind,src=/srv/in,dst=/in,readonly";
          "type=bind,src=/home/dev/example,dst=/sandbox"].
Proof. reflexivity. Qed.

(** ** The allow-list variable (C10) *)

Lemma dev_envs_names manifest e :
  In e (dev_envs manifest) -> var_name e <> "ALLOWED_EGRESS".
Proof.
  destruct manifest as [m|d]; cbn [dev_envs]; [intros []|].
  intros [<-|[<-|[]]]; discriminate.
Qed.

(** C10, as stated, fails: a static environment variable named
    [ALLOWED_EGRESS] puts the allow-list variable into the argument vector
    although no network permission was consented (none was even
    requested). *)
Lemma egress_flag_without_network :
  let w := host ∅ ∅ allow_all in
  let manifest := Plain (manifest_with []) in
  let senv := [("ALLOWED_EGRESS", "10.0.0.1:22")] in
  exists srv w' inv,
    __init__ manifest None None [] senv 60 true w = (Return srv, w')
    /\ docker_run (args srv) = Some inv
    /\ env_vars inv = ["PACKAGE=example-pkg"; "ALLOWED_EGRESS=10.0.0.1:22"]
    /\ ~ (egress_flag_present inv
          <-> exists p, In p (consented_of w []) /\ is_network p = true).
Proof.
  intros w manifest senv. do 3 eexists.
  split; [reflexivity|]. split; [reflexivity|]. split; [reflexivity|].
  intros [Hflag _].
  destruct Hflag as (p & [] & _). right. now left.
Qed.

(** C10, amended. Provided no consented environment permission and no static
    environment variable is named [ALLOWED_EGRESS] (a name is read up to its
    first equals sign), the built invocation defines the allow-list variable
    if and only if at least one network permission was consented; it is
    never passed with an empty value, and without a consented network
    permission the builder contributes no allow-list entry at all. *)
Theorem egress_flag_iff manifest name runtime_args P senv tmo rm w srv w' :
  __init__ manifest name runtime_args P senv tmo rm w = (Return srv, w') ->
  (forall i n, consented_at w P i (EnvironmentVariable n) ->
               var_name n <> "ALLOWED_EGRESS") ->
  (forall k v, In (k, v) senv -> var_name k <> "ALLOWED_EGRESS") ->
  let c := consented_of w P in
  (egress_args c = [] <-> ~ exists p, In p c /\ is_network p = true)
  /\ exists inv,
       docker_run (args srv) = Some inv
       /\ (egress_flag_present inv
           <-> exists p, In p c /\ is_network p = true)
       /\ ~ In "ALLOWED_EGRESS=" (env_vars inv).
Proof.
  intros H Henv Hstatic c. apply init_returns in H as (_ & -> & _).
  assert (forall e, In e (passed_envs (environ w) c ++ static_envs senv
                          ++ dev_envs manifest) ->
                    var_name e <> "ALLOWED_EGRESS") as Hother.
  { intros e. rewrite !in_app_iff. intros [He|[He|He]].
    - apply In_passed_envs in He as (n & Hn & ->). rewrite var_name_assign.
      apply consented_of_lookup in Hn as (i & Hi). eapply Henv, Hi.
    - apply In_static_envs in He as (k & v & Hkv & ->). rewrite var_name_assign.
      eapply Hstatic, Hkv.
    - eapply dev_envs_names, He. }
  split.
  - rewrite egress_args_render, egress_envs_cases, <- pairs_nil_iff.
    destruct (domain_pairs c ++ host_pairs c); split; try reflexivity;
      discriminate.
  - eexists. split; [apply docker_run_build_args|].
    unfold egress_flag_present. cbn [env_vars]. fold c.
    rewrite egress_envs_cases.
    destruct (domain_pairs c ++ host_pairs c) as [|s l] eqn:E.
    + assert (~ exists p, In p c /\ is_network p = true) as Hno
        by (now apply pairs_nil_iff).
      split; [split|].
      * cbn [app map In]. intros [Habs|Hin]; [discriminate|].
        apply in_map_iff in Hin as (e & He & Hin).
        now apply Hother in Hin.
      * intros Hex. now destruct Hno.
      * cbn [app In]. intros [Habs|Hin]; [discriminate|].
        apply Hother in Hin. now apply Hin.
    + split; [split|].
      * intros _. destruct (classic_network c) as [Hex|Hno]; [assumption|].
        apply pairs_nil_iff in Hno. congruence.
      * intros _. cbn. right. now left.
      * cbn [app In]. intros [Habs|[Habs|Hin]]; [discriminate| |].
        -- assert (s <> "") as Hs
             by (apply (In_pairs_not_empty c); rewrite E; now left).
           cbn [String.concat] in Habs.
           destruct s; [congruence|]. destruct l; discriminate.
        -- apply Hother in Hin. now apply Hin.
Qed.

(** [mixed_request], every request granted, with a static variable [TZ]. *)
Lemma egress_flag_iff_witness :
  let w := host home_env ∅ allow_all in
  let c := consented_of w mixed_request in
  let srv := built mixed_manifest None None mixed_request [("TZ", "UTC")] 60 true w in
  __init__ mixed_manifest None None mixed_request [("TZ", "UTC")] 60 true w
  = (Return srv, with_prompts mixed_request w)
  /\ (egress_args c = [] <-> ~ exists p, In p c /\ is_network p = true)
  /\ exists inv,
       docker_run (args srv) = Some inv
       /\ (egress_flag_present inv
           <-> exists p, In p c /\ is_network p = true)
       /\ ~ In "ALLOWED_EGRESS=" (env_vars inv).
Proof.
  intros w c srv. split; [reflexivity|].
  refine (egress_flag_iff mixed_manifest None None mixed_request
            [("TZ", "UTC")] 60 true w _ _ eq_refl _ _).
  - intros i n [Hl _].
    destruct i as [|[|[|i]]]; cbn in Hl; try discriminate.
    injection Hl as <-. discriminate.
  - intros k v [Hkv|[]]. injection Hkv as <- <-. discriminate.
Defined.

(** ** Which accesses reach the argument vector (C2) *)

(** C2, as stated, fails: with no runtime permission requested at all, a
    static environment variable and the source mount of a development
    manifest are exposed to the sandboxed process. Neither is checked
    against the manifest's categories and neither is put to the consent
    source. *)
Lemma access_without_permission :
  let w := host ∅ ∅ deny_all in
  let manifest := Dev (dev_manifest_with []) in
  exists srv w' inv,
    __init__ manifest None None [] [("SECRET", "x")] 60 true w = (Return srv, w')
    /\ prompts w' = []
    /\ docker_run (args srv) = Some inv
    /\ In "SECRET=x" (env_vars inv)
    /\ In "type=bind,src=/home/dev/example,dst=/sandbox" (mounts inv)
    /\ ~ every_access_authorised manifest w [] inv.
Proof.
  intros w manifest. do 3 eexists.
  split; [reflexivity|]. split; [reflexivity|]. split; [reflexivity|].
  split; [cbn; tauto|]. split; [now left|].
  intros [Hm _].
  destruct (Hm "type=bind,src=/home/dev/example,dst=/sandbox")
    as (path & cp & r & wr & [_ (i & Hl & _)] & _); [now left|].
  destruct i; discriminate.
Qed.

(** C2, amended. Every bind-mount of a built invocation is the entry of a
    filesystem permission that is declared by the manifest's categories and
    was granted, or the source mount of a development manifest. Every
    environment assignment is the package identity, or the allow-list whose
    items each render a declared and granted network permission, or the
    pass-through of a declared and granted environment permission, or a
    static environment variable supplied by the caller, or one of the two
    markers of a development manifest. The static variables, the package
    identity and the development entries pass without a permission and
    without consent. *)
Theorem accesses_classified manifest name runtime_args P senv tmo rm w srv w' :
  __init__ manifest name runtime_args P senv tmo rm w = (Return srv, w') ->
  exists inv,
    docker_run (args srv) = Some inv
    /\ (forall m, In m (mounts inv) ->
          (exists path cp r wr,
             authorised manifest w P (FSAccess path cp r wr)
             /\ m = mount_entry path cp wr)
          \/ (exists d, manifest = Dev d
                        /\ m = "type=bind,src=" +:+ code_mount d +:+ ",dst=/sandbox"))
    /\ (forall e, In e (env_vars inv) ->
          e = "PACKAGE=" +:+ package_name (fields manifest)
          \/ (exists items,
                e = "ALLOWED_EGRESS=" +:+ String.concat "," items
                /\ forall s, In s items ->
                     exists p, authorised manifest w P p /\ endpoint p = Some s)
          \/ (exists n, authorised manifest w P (EnvironmentVariable n)
                        /\ e = n +:+ "=" +:+ str_optional (environ w !! n))
          \/ (exists k v, In (k, v) senv /\ e = k +:+ "=" +:+ v)
          \/ (exists d, manifest = Dev d
                        /\ (e = "PRE_INSTALLED=true"
                            \/ e = "EXE=" +:+ exec_command d))).
Proof.
  intros H. apply init_returns in H as (Hoff & -> & _).
  assert (forall p, In p (consented_of w P) -> authorised manifest w P p) as Hauth.
  { intros p Hp. apply consented_of_lookup in Hp as (i & Hi).
    eapply consented_authorised; eassumption. }
  eexists. split; [apply docker_run_build_args|].
  cbn [mounts env_vars]. split.
  - intros m. rewrite in_app_iff. intros [Hm|Hm].
    + left. apply In_fs_mounts in Hm as (path & cp & r & wr & Hp & ->).
      exists path, cp, r, wr. split; [now apply Hauth|reflexivity].
    + right. destruct manifest as [m0|d]; [destruct Hm|].
      destruct Hm as [<-|[]]. eauto.
  - intros e [<-|He]; [now left|]. right.
    rewrite !in_app_iff in He. destruct He as [He|[He|[He|He]]].
    + left. rewrite egress_envs_cases in He.
      destruct (domain_pairs (consented_of w P) ++ host_pairs (consented_of w P))
        as [|s l] eqn:E; [destruct He|].
      destruct He as [<-|[]]. exists (s :: l). split; [reflexivity|].
      intros s' Hs'. rewrite <- E in Hs'.
      apply In_pairs in Hs' as (p & Hp & Hs'). eauto.
    + right. left. apply In_passed_envs in He as (n & Hn & ->). eauto.
    + right. right. left. now apply In_static_envs.
    + right. right. right. destruct manifest as [m0|d]; [destruct He|].
      exists d. split; [reflexivity|].
      destruct He as [<-|[<-|[]]]; auto.
Qed.

(** [mixed_request] under a development manifest, every request granted,
    with a static variable [TZ]. *)
Lemma accesses_classified_witness :
  let w := host home_env ∅ allow_all in
  let srv := built mixed_manifest None None mixed_request [("TZ", "UTC")] 60 true w in
  __init__ mixed_manifest None None mixed_request [("TZ", "UTC")] 60 true w
  = (Return srv, with_prompts mixed_request w)
  /\ exists inv,
    docker_run (args srv) = Some inv
    /\ (forall m, In m (mounts inv) ->
          (exists path cp r wr,
             authorised mixed_manifest w mixed_request (FSAccess path cp r wr)
             /\ m = mount_entry path cp wr)
          \/ (exists d, mixed_manifest = Dev d
                        /\ m = "type=bind,src=" +:+ code_mount d +:+ ",dst=/sandbox"))
    /\ (forall e, In e (env_vars inv) ->
          e = "PACKAGE=" +:+ package_name (fields mixed_manifest)
          \/ (exists items,
                e = "ALLOWED_EGRESS=" +:+ String.concat "," items
                /\ forall s, In s items ->
                     exists p, authorised mixed_manifest w mixed_request p
                               /\ endpoint p = Some s)
          \/ (exists n, authorised mixed_manifest w mixed_request (EnvironmentVariable n)
                        /\ e = n +:+ "=" +:+ str_optional (environ w !! n))
          \/ (exists k v, In (k, v) [("TZ", "UTC")] /\ e = k +:+ "=" +:+ v)
          \/ (exists d, mixed_manifest = Dev d
                        /\ (e = "PRE_INSTALLED=true"
                            \/ e = "EXE=" +:+ exec_command d))).
Proof.
  intros w srv. split; [reflexivity|].
  exact (accesses_classified mixed_manifest None None mixed_request
           [("TZ", "UTC")] 60 true w _ _ eq_refl).
Defined.

(** The invocation of [mixed_request], every request granted. *)
Example mixed_request_invocation :
  docker_run
    (args (built mixed_manifest None None mixed_request [("TZ", "UTC")] 60 true
             (host home_env ∅ allow_all)))
  = Some {| flags := ["--rm"; "-i"; "--cap-add=NET_ADMIN"];
            mounts := ["type=bind,src=/srv/db,dst=/srv/db,readonly";
                       "type=bind,src=/home/dev/example,dst=/sandbox"];
            env_vars := ["PACKAGE=example-pkg";
                         "ALLOWED_EGRESS=db.example.com:443";
                         "HOME=/root"; "TZ=UTC"; "PRE_INSTALLED=true";
                         "EXE=python3 -m example"];
            image := "ghcr.io/guardiagent/mcp-sandbox-npm:latest";
            arguments := [] |}.
Proof. reflexivity. Qed.

(** ** Absent host variables (C5) *)

(** C5. The scenario of the specification, run on the code: the manifest
    declares system-environment-read, the environment permission [API_KEY]
    is requested and granted, and the host environment has no [API_KEY].
    The build succeeds, but the assignment it passes is [API_KEY=None], the
    formatted [None] of [os.environ.get], not [API_KEY=] with an empty
    value. *)
Theorem absent_variable_formats_None :
  let w := host ∅ ∅ allow_all in
  environ w !! "API_KEY" = None
  /\ exists srv w' inv,
       __init__ env_manifest None None env_request [] 60 true w = (Return srv, w')
       /\ docker_run (args srv) = Some inv
       /\ env_vars inv = ["PACKAGE=example-pkg"; "API_KEY=None"]
       /\ ~ In "API_KEY=" (env_vars inv).
Proof.
  intros w. split; [reflexivity|]. do 3 eexists.
  split; [reflexivity|]. split; [reflexivity|]. split; [reflexivity|].
  cbn. intros [H|[H|[]]]; discriminate.
Qed.

(** The same for every name and host: an absent variable yields the
    assignment [NAME=None]. *)
Lemma passed_envs_absent env n :
  env !! n = None ->
  passed_envs env [EnvironmentVariable n] = [n +:+ "=None"].
Proof. intros H. cbn. now rewrite H. Qed.

(** ** Denied permissions (C7) *)

Lemma granted_none op k ps :
  (forall i p, ps !! i = Some p -> op (k + i) p = false) ->
  granted op k ps = [].
Proof.
  intros Hall. destruct (granted op k ps) as [|p l] eqn:E; [reflexivity|].
  assert (In p (granted op k ps)) as Hin by (rewrite E; now left).
  apply granted_lookup in Hin as (i & Hi & Hop).
  rewrite (Hall i p Hi) in Hop. discriminate.
Qed.

Lemma Forall2_In_left {A B} (R : A -> B -> Prop) l1 l2 x :
  Forall2 R l1 l2 -> In x l1 -> exists y, In y l2 /\ R x y.
Proof.
  induction 1 as [|a b l1 l2 Hab _ IH]; [intros []|].
  intros [<-|Hx]; [exists b; split; [now left|exact Hab]|].
  destruct (IH Hx) as (y & Hy & Hxy). exists y. split; [now right|exact Hxy].
Qed.

Lemma served_build_args manifest c senv env (inv : Invocation) p :
  mounts inv = fs_mounts c ++ dev_mounts manifest ->
  env_vars inv
  = ("PACKAGE=" +:+ package_name (fields manifest))
    :: egress_envs c ++ passed_envs env c ++ static_envs senv
       ++ dev_envs manifest ->
  In p c -> served env inv p.
Proof.
  intros Hm He Hp.
  assert (forall q, (is_domain q || is_host q)%bool = true -> In q c ->
            exists s pairs,
              pair_for q s /\ In s pairs
              /\ In ("ALLOWED_EGRESS=" +:+ String.concat "," pairs)
                    (env_vars inv)) as Hnet.
  { intros q Hq Hin.
    assert (In q (List.filter is_domain c ++ List.filter is_host c)) as Hq'.
    { rewrite in_app_iff, !filter_In. apply orb_true_iff in Hq. tauto. }
    destruct (Forall2_In_left _ _ _ _ (pairs_spec c) Hq') as (s & Hs & Hqs).
    exists s, (domain_pairs c ++ host_pairs c).
    split; [exact Hqs|]. split; [exact Hs|].
    rewrite He, egress_envs_cases. right. rewrite in_app_iff. left.
    destruct (domain_pairs c ++ host_pairs c); [destruct Hs|now left]. }
  destruct p as [d port|h port|path cp r wr|n]; cbn [served].
  - now apply Hnet.
  - now apply Hnet.
  - assert (In (FSAccess path cp r wr) (List.filter is_fs c)) as Hp'
      by (apply filter_In; now split).
    destruct (Forall2_In_left _ _ _ _ (fs_mounts_spec c) Hp') as (m & Hin & Hb).
    exists m. split; [|exact Hb]. rewrite Hm, in_app_iff. now left.
  - assert (In (EnvironmentVariable n) (List.filter is_env c)) as Hp'
      by (apply filter_In; now split).
    destruct (Forall2_In_left _ _ _ _ (passed_envs_spec env c) Hp')
      as (e & Hin & Ha).
    exists e. split; [|exact Ha]. rewrite He. right.
    rewrite !in_app_iff. right. now left.
Qed.

(** C7. When every requested permission passes the validation,
    construction returns a server whatever the consent source answers. Its
    argument vector is built from the granted permissions alone: it is the
    vector that requesting just those permissions, all granted, would give.
    When every request is denied the invocation is still built, with no
    permission mount, no allow-list and no pass-through variable.

    The granted permissions are the requested ones with the denied requests
    left out, order kept, and the invocation read back from the argument
    vector holds them and nothing else of the request: its mounts are one
    bind mount for each granted filesystem permission, then the development
    mount; its environment is the package identity, the allow-list of one
    pair for each granted network permission (no allow-list when there is no
    pair), one assignment for each granted environment permission, the
    static variables and the development markers. So every granted
    permission is served by the invocation, whichever others were denied. *)
Theorem denial_reduces_not_fails manifest name runtime_args P senv tmo rm w :
  (forall p, In p P ->
     validate_with_manifest_perms p (permissions (fields manifest)) = true) ->
  exists srv,
    __init__ manifest name runtime_args P senv tmo rm w
    = (Return srv, with_prompts (prompts w ++ P) w)
    /\ (forall p, In p (consented_of w P) <-> exists i, consented_at w P i p)
    /\ args srv
       = build_args manifest runtime_args (consented_of w P) senv rm
           (environ w) (_sandbox_version w)
    /\ fst (__init__ manifest name runtime_args (consented_of w P) senv tmo rm
              (with_operator allow_all w))
       = Return srv
    /\ ((forall i p, P !! i = Some p ->
                     operator w (length (prompts w) + i) p = false) ->
        docker_run (args srv)
        = Some {| flags := (if rm then ["--rm"] else [])
                           ++ ["-i"; "--cap-add=NET_ADMIN"];
                  mounts := dev_mounts manifest;
                  env_vars := ("PACKAGE=" +:+ package_name (fields manifest))
                              :: static_envs senv ++ dev_envs manifest;
                  image := image_ref manifest (_sandbox_version w);
                  arguments := positional runtime_args |})
    /\ subsequence (consented_of w P) P
    /\ exists inv entries pairs passed,
         docker_run (args srv) = Some inv
         /\ mounts inv = entries ++ dev_mounts manifest
         /\ Forall2 bind_mount_for (List.filter is_fs (consented_of w P)) entries
         /\ env_vars inv
            = ("PACKAGE=" +:+ package_name (fields manifest))
              :: allow_list_entry pairs ++ passed ++ static_envs senv
                 ++ dev_envs manifest
         /\ Forall2 pair_for
              (List.filter is_domain (consented_of w P)
               ++ List.filter is_host (consented_of w P)) pairs
         /\ Forall2 (assignment_for (environ w))
              (List.filter is_env (consented_of w P)) passed
         /\ (forall i p, consented_at w P i p -> served (environ w) inv p).
Proof.
  intros Hall. apply offending_nil_valid in Hall as Hoff.
  exists (built manifest name runtime_args P senv tmo rm w).
  destruct (init_cases manifest name runtime_args P senv tmo rm w)
    as [[_ Heq]|[Hne _]]; [|congruence].
  split; [exact Heq|]. split; [intros p; apply consented_of_lookup|].
  split; [reflexivity|]. split; [|split; [|split]].
  - destruct (init_cases manifest name runtime_args (consented_of w P) senv tmo
                rm (with_operator allow_all w)) as [[_ Heq']|[Hne _]].
    + rewrite Heq'. cbn [fst]. unfold built. f_equal. f_equal.
      unfold consented_of at 1. cbn [operator with_operator].
      now rewrite granted_allow_all.
    + destruct Hne. apply offending_nil_valid. intros p Hp. apply Hall.
      eapply granted_In, Hp.
  - intros Hdeny. cbn [args built]. rewrite docker_run_build_args.
    unfold consented_of. rewrite (granted_none _ _ _ Hdeny). reflexivity.
  - apply granted_subsequence.
  - cbn [args built].
    exists {| flags := (if rm then ["--rm"] else []) ++ ["-i"; "--cap-add=NET_ADMIN"];
              mounts := fs_mounts (consented_of w P) ++ dev_mounts manifest;
              env_vars := ("PACKAGE=" +:+ package_name (fields manifest))
                          :: egress_envs (consented_of w P)
                             ++ passed_envs (environ w) (consented_of w P)
                             ++ static_envs senv ++ dev_envs manifest;
              image := image_ref manifest (_sandbox_version w);
              arguments := positional runtime_args |},
      (fs_mounts (consented_of w P)),
      (domain_pairs (consented_of w P) ++ host_pairs (consented_of w P)),
      (passed_envs (environ w) (consented_of w P)).
    split; [apply docker_run_build_args|]. split; [reflexivity|].
    split; [apply fs_mounts_spec|]. split.
    { cbn [env_vars]. rewrite egress_envs_cases. reflexivity. }
    split; [apply pairs_spec|]. split; [apply passed_envs_spec|].
    intros i p Hi.
    apply (served_build_args manifest (consented_of w P) senv);
      [reflexivity|reflexivity|].
    apply consented_of_lookup. eauto.
Qed.

(** [mixed_request] with the filesystem request denied and the two others
    granted. *)
Lemma denial_reduces_not_fails_witness :
  let w := host home_env ∅ deny_files in
  let c := [DomainPort "db.example.com" 443; EnvironmentVariable "HOME"] in
  (forall p, In p mixed_request ->
     validate_with_manifest_perms p (permissions (fields mixed_manifest)) = true)
  /\ exists srv,
    __init__ mixed_manifest None None mixed_request [] 60 true w
    = (Return srv, with_prompts (prompts w ++ mixed_request) w)
    /\ (forall p, In p c <-> exists i, consented_at w mixed_request i p)
    /\ args srv
       = build_args mixed_manifest None c [] true
           (environ w) (_sandbox_version w)
    /\ fst (__init__ mixed_manifest None None c
              [] 60 true (with_operator allow_all w))
       = Return srv
    /\ ((forall i p, mixed_request !! i = Some p ->
                     operator w (length (prompts w) + i) p = false) ->
        docker_run (args srv)
        = Some {| flags := ["--rm"] ++ ["-i"; "--cap-add=NET_ADMIN"];
                  mounts := dev_mounts mixed_manifest;
                  env_vars := ("PACKAGE=" +:+ package_name (fields mixed_manifest))
                              :: static_envs [] ++ dev_envs mixed_manifest;
                  image := image_ref mixed_manifest (_sandbox_version w);
                  arguments := positional None |})
    /\ subsequence c mixed_request
    /\ exists inv entries pairs passed,
         docker_run (args srv) = Some inv
         /\ mounts inv = entries ++ dev_mounts mixed_manifest
         /\ Forall2 bind_mount_for [] entries
         /\ env_vars inv
            = "PACKAGE=example-pkg"
              :: allow_list_entry pairs ++ passed ++ static_envs []
                 ++ dev_envs mixed_manifest
         /\ Forall2 pair_for [DomainPort "db.example.com" 443] pairs
         /\ Forall2 (assignment_for (environ w)) [EnvironmentVariable "HOME"]
              passed
         /\ (forall i p, consented_at w mixed_request i p ->
                         served (environ w) inv p).
Proof.
  intros w c.
  assert (forall p, In p mixed_request ->
            validate_with_manifest_perms p (permissions (fields mixed_manifest))
            = true) as Hall.
  { intros p [<-|[<-|[<-|[]]]]; reflexivity. }
  split; [exact Hall|].
  exact (denial_reduces_not_fails mixed_manifest None None mixed_request []
           60 true w Hall).
Defined.

(** Denying the filesystem request of [mixed_request] alone: the allow-list
    and the pass-through of the two granted permissions stay, the mount of
    the denied one is left out. *)
Example partly_denied_vector :
  fst (__init__ mixed_manifest (Some "db") None mixed_request [] 60 true
         (host home_env ∅ deny_files))
  = Return {| server_name := "db"; command := "docker";
              args := ["run"; "--rm"; "-i"; "--cap-add=NET_ADMIN";
                       "-e"; "PACKAGE=example-pkg";
                       "-e"; "ALLOWED_EGRESS=db.example.com:443";
                       "-e"; "HOME=/root";
                       "--mount"; "type=bind,src=/home/dev/example,dst=/sandbox";
                       "-e"; "PRE_INSTALLED=true";
                       "-e"; "EXE=python3 -m example";
                       "ghcr.io/guardiagent/mcp-sandbox-npm:latest"];
              client_session_timeout_seconds := 60 |}.
Proof. reflexivity. Qed.

(** Denying every request of [mixed_request]: the argument vector keeps the
    package identity and the development entries only. *)
Example all_denied_vector :
  fst (__init__ mixed_manifest (Some "db") None mixed_request [] 60 true
         (host home_env ∅ deny_all))
  = Return {| server_name := "db"; command := "docker";
              args := ["run"; "--rm"; "-i"; "--cap-add=NET_ADMIN";
                       "-e"; "PACKAGE=example-pkg";
                       "--mount"; "type=bind,src=/home/dev/example,dst=/sandbox";
                       "-e"; "PRE_INSTALLED=true";
                       "-e"; "EXE=python3 -m example";
                       "ghcr.io/guardiagent/mcp-sandbox-npm:latest"];
              client_session_timeout_seconds := 60 |}.
Proof. reflexivity. Qed.

(** ** Environment pass-through (C8) *)





(** The same request on a host that does not define [HOME]: the one
    assignment of the variable carries the text [None]. *)
Example unset_variable_assignment :
  let w := host ∅ ∅ allow_all in
  exists srv w' inv,
    __init__ mixed_manifest None None mixed_request [("TZ", "UTC")] 60 true w
    = (Return srv, w')
    /\ docker_run (args srv) = Some inv
    /\ List.filter (fun e => String.eqb (var_name e) "HOME") (env_vars inv)
       = ["HOME=None"].
Proof.
  intros w. do 3 eexists.
  split; [reflexivity|]. split; reflexivity.
Qed.

(** A change of [HOME] after construction: the built vector keeps the value
    read at build time, and only a new construction reads the new one. *)
Example later_change_not_seen :
  let w := host home_env ∅ allow_all in
  let build := __init__ env_manifest None None [EnvironmentVariable "HOME"] [] 60 true in
  let later := (let! s := build in
                do! apply_updates [SetEnv "HOME" "/tmp"] in
                let! s' := build in
                ret (args s, args s')) in
  fst (later w)
  = Return (["run"; "--rm"; "-i"; "--cap-add=NET_ADMIN"; "-e"; "PACKAGE=example-pkg";
             "-e"; "HOME=/root"; "ghcr.io/guardiagent/mcp-sandbox-npm:latest"],
            ["run"; "--rm"; "-i"; "--cap-add=NET_ADMIN"; "-e"; "PACKAGE=example-pkg";
             "-e"; "HOME=/tmp"; "ghcr.io/guardiagent/mcp-sandbox-npm:latest"]).
Proof. vm_compute. reflexivity. Qed.

(** ** Development manifests (C9) *)

Lemma offending_fields m1 m2 P :
  fields m1 = fields m2 -> offending m1 P = offending m2 P.
Proof. unfold offending. now intros ->. Qed.

(** C9, as stated, fails in its last clause: under a plain manifest all
    three entries of its development counterpart appear in the invocation
    when the caller passes the two markers as static environment variables
    and holds a granted filesystem permission mounted onto [/sandbox]. *)
Lemma dev_entries_under_plain_manifest :
  let w := host ∅ ∅ allow_all in
  let d := dev_manifest_with [MCP_AC_FILESYSTEM_WRITE] in
  let P := [FSAccess "/home/dev/example" (Some "/sandbox") true true] in
  let senv := [("PRE_INSTALLED", "true"); ("EXE", "python3 -m example")] in
  exists srv w' inv,
    __init__ (Plain (dev_base d)) None None P senv 60 true w = (Return srv, w')
    /\ docker_run (args srv) = Some inv
    /\ In ("type=bind,src=" +:+ code_mount d +:+ ",dst=/sandbox") (mounts inv)
    /\ In "PRE_INSTALLED=true" (env_vars inv)
    /\ In ("EXE=" +:+ exec_command d) (env_vars inv).
Proof.
  intros w d P senv. do 3 eexists.
  split; [reflexivity|]. split; [reflexivity|].
  split; [now left|]. split; [right; now left|]. right. right. now left.
Qed.

(** C9, amended. A development manifest and the plain manifest with the same
    fields, given the same inputs in the same world, either both fail
    validation in the same way or both build, with the same effects; and
    then the development vector is the plain one with exactly six tokens
    inserted just before the image reference: the bind-mount of the local
    source path onto [/sandbox], the marker [PRE_INSTALLED=true] and the
    marker [EXE=] with the override launch command. The runtime reads one
    more mount and exactly two more environment assignments. Under a plain
    manifest the builder adds none of them: every mount is the entry of a
    consented filesystem permission, and neither [PRE_INSTALLED] nor [EXE]
    is defined unless a static environment variable or a consented
    environment permission of the caller has that name. *)
Theorem dev_manifest_additions d name runtime_args P senv tmo rm w :
  match __init__ (Plain (dev_base d)) name runtime_args P senv tmo rm w,
        __init__ (Dev d) name runtime_args P senv tmo rm w with
  | (Return plain, wp), (Return dev, wd) =>
      wp = wd
      /\ (exists pre post,
            args plain = pre ++ post
            /\ args dev = pre ++ dev_tokens d ++ post
            /\ post = image_ref (Dev d) (_sandbox_version w)
                      :: positional runtime_args)
      /\ (exists ip idv,
            docker_run (args plain) = Some ip
            /\ docker_run (args dev) = Some idv
            /\ mounts idv
               = mounts ip ++ ["type=bind,src=" +:+ code_mount d +:+ ",dst=/sandbox"]
            /\ env_vars idv
               = env_vars ip ++ ["PRE_INSTALLED=true"; "EXE=" +:+ exec_command d]
            /\ flags idv = flags ip
            /\ image idv = image ip
            /\ arguments idv = arguments ip
            /\ Forall2 bind_mount_for
                 (List.filter is_fs (consented_of w P)) (mounts ip)
            /\ ((forall i n, consented_at w P i (EnvironmentVariable n) ->
                             var_name n <> "PRE_INSTALLED" /\ var_name n <> "EXE") ->
                (forall k v, In (k, v) senv ->
                             var_name k <> "PRE_INSTALLED" /\ var_name k <> "EXE") ->
                ~ In "PRE_INSTALLED" (map var_name (env_vars ip))
                /\ ~ In "EXE" (map var_name (env_vars ip))))
  | (Raise e1, w1), (Raise e2, w2) => e1 = e2 /\ w1 = w2
  | _, _ => False
  end.
Proof.
  pose proof (offending_fields (Plain (dev_base d)) (Dev d) P eq_refl) as Hsame.
  destruct (init_cases (Plain (dev_base d)) name runtime_args P senv tmo rm w)
    as [[Hp ->]|[Hp ->]];
    destruct (init_cases (Dev d) name runtime_args P senv tmo rm w)
      as [[Hd ->]|[Hd ->]]; try congruence.
  - split; [reflexivity|]. split.
    + cbn [args built]. unfold build_args.
      exists (["run"] ++ (if rm then ["--rm"] else [])
              ++ ["-i"; "--cap-add=NET_ADMIN"; "-e";
                  "PACKAGE=" +:+ package_name (dev_base d)]
              ++ fs_args (consented_of w P) ++ egress_args (consented_of w P)
              ++ env_args (environ w) (consented_of w P) ++ static_args senv).
      eexists. split; [|split; [|reflexivity]].
      * cbn [add_args fields]. rewrite <- !app_assoc. reflexivity.
      * cbn [add_args fields]. unfold dev_tokens.
        rewrite <- !app_assoc. reflexivity.
    + do 2 eexists. cbn [args built].
      split; [apply docker_run_build_args|].
      split; [apply docker_run_build_args|].
      cbn [mounts env_vars flags image arguments dev_mounts dev_envs fields].
      rewrite !app_nil_r. split; [reflexivity|].
      split; [rewrite app_comm_cons, !app_assoc; reflexivity|].
      do 3 (split; [reflexivity|]). split; [apply fs_mounts_spec|].
      intros Henv Hstatic.
      assert (forall x, x <> "PACKAGE" -> x <> "ALLOWED_EGRESS" ->
                (forall i n, consented_at w P i (EnvironmentVariable n) ->
                             var_name n <> x) ->
                (forall k v, In (k, v) senv -> var_name k <> x) ->
                ~ In x (map var_name
                          (("PACKAGE=" +:+ package_name (dev_base d))
                           :: egress_envs (consented_of w P)
                              ++ passed_envs (environ w) (consented_of w P)
                              ++ static_envs senv))) as Habsent.
      { intros x Hx1 Hx2 He Hs Hin.
        apply in_map_iff in Hin as (e & Hname & [<-|Hin]).
        - now apply Hx1.
        - rewrite !in_app_iff in Hin. destruct Hin as [Hin|[Hin|Hin]].
          + unfold egress_envs in Hin.
            destruct (String.eqb (allowed_egress (consented_of w P)) "");
              [destruct Hin|].
            destruct Hin as [<-|[]]. now apply Hx2.
          + apply In_passed_envs in Hin as (n & Hn & ->).
            rewrite var_name_assign in Hname.
            apply consented_of_lookup in Hn as (i & Hi).
            now apply (He i n Hi).
          + apply In_static_envs in Hin as (k & v & Hkv & ->).
            rewrite var_name_assign in Hname. now apply (Hs k v Hkv). }
      split; apply Habsent; try discriminate.
      * intros i n Hi. now apply (Henv i n Hi).
      * intros k v Hkv. now apply (Hstatic k v Hkv).
      * intros i n Hi. now apply (Henv i n Hi).
      * intros k v Hkv. now apply (Hstatic k v Hkv).
  - split; [|reflexivity]. now rewrite Hsame.
Qed.

(** [mixed_request] with a static variable [TZ]: no name collides, and the
    plain invocation defines neither marker. *)
Lemma dev_manifest_additions_witness :
  let w := host home_env ∅ allow_all in
  let d := dev_manifest_with [MCP_AC_NETWORK_CLIENT; MCP_AC_FILESYSTEM_READ;
                              MCP_AC_SYSTEM_ENV_READ] in
  let plain := built (Plain (dev_base d)) None None mixed_request [("TZ", "UTC")] 60 true w in
  let dev := built (Dev d) None None mixed_request [("TZ", "UTC")] 60 true w in
  exists pre post ip idv,
    args plain = pre ++ post
    /\ args dev = pre ++ dev_tokens d ++ post
    /\ docker_run (args plain) = Some ip
    /\ docker_run (args dev) = Some idv
    /\ mounts idv = mounts ip ++ ["type=bind,src=/home/dev/example,dst=/sandbox"]
    /\ env_vars idv = env_vars ip ++ ["PRE_INSTALLED=true"; "EXE=python3 -m example"]
    /\ ~ In "PRE_INSTALLED" (map var_name (env_vars ip))
    /\ ~ In "EXE" (map var_name (env_vars ip)).
Proof.
  intros w d plain dev.
  pose proof (dev_manifest_additions d None None mixed_request [("TZ", "UTC")]
                60 true w) as H.
  change (__init__ (Plain (dev_base d)) None None mixed_request
            [("TZ", "UTC")] 60 true w)
    with (Return plain, with_prompts mixed_request w) in H.
  change (__init__ (Dev d) None None mixed_request [("TZ", "UTC")] 60 true w)
    with (Return dev, with_prompts mixed_request w) in H.
  cbv beta iota in H.
  destruct H as (_ & (pre & post & Hp & Hd & _) & (ip & idv & Hip & Hidv & Hm & He & _ & _ & _ & _ & Habs)).
  exists pre, post, ip, idv.
  repeat (split; [assumption|]).
  apply Habs.
  - intros i n [Hl _].
    destruct i as [|[|[|i]]]; cbn in Hl; try discriminate.
    injection Hl as <-. split; discriminate.
  - intros k v [Hkv|[]]. injection Hkv as <- <-. split; discriminate.
Defined.

(** The invocations of [mixed_request] under the development manifest and
    under its plain counterpart. *)
Example plain_and_dev_vectors :
  let w := host home_env ∅ first_only in
  let plain := Plain (dev_base (dev_manifest_with [MCP_AC_NETWORK_CLIENT;
                 MCP_AC_FILESYSTEM_READ; MCP_AC_SYSTEM_ENV_READ])) in
  args (built plain None (Some ["--verbose"]) mixed_request [] 60 false w)
  = ["run"; "-i"; "--cap-add=NET_ADMIN"; "-e"; "PACKAGE=example-pkg";
     "-e"; "ALLOWED_EGRESS=db.example.com:443";
     "ghcr.io/guardiagent/mcp-sandbox-npm:latest"; "--verbose"]
  /\ args (built mixed_manifest None (Some ["--verbose"]) mixed_request [] 60 false w)
     = ["run"; "-i"; "--cap-add=NET_ADMIN"; "-e"; "PACKAGE=example-pkg";
        "-e"; "ALLOWED_EGRESS=db.example.com:443";
        "--mount"; "type=bind,src=/home/dev/example,dst=/sandbox";
        "-e"; "PRE_INSTALLED=true"; "-e"; "EXE=python3 -m example";
        "ghcr.io/guardiagent/mcp-sandbox-npm:latest"; "--verbose"].
Proof. split; reflexivity. Qed.

(** The travel manifest of the repository: the added tokens. *)
Example travel_dev_tokens :
  add_args (travel_manifest "/opt/spendwise/mcp-server-travel")
  = ["--mount"; "type=bind,src=/opt/spendwise/mcp-server-travel,dst=/sandbox";
     "-e"; "PRE_INSTALLED=true";
     "-e"; "EXE=sh -c 'pip install -q --break-system-packages /sandbox >&2 && python3 -m mcp_server_travel'"].
Proof. reflexivity. Qed.

(** ** Missing paths (C6) *)

(** C6, as stated, fails: on a host where no path exists, the builder
    returns an invocation for a development manifest whose source path is
    missing and for a granted filesystem permission whose host path is
    missing; both paths are mounted. *)
Lemma build_succeeds_on_missing_paths :
  let w := host ∅ ∅ allow_all in
  let manifest := Dev (dev_manifest_with [MCP_AC_FILESYSTEM_READ]) in
  let P := [FSAccess "/no/such/dir" None true false] in
  ("/home/dev/example" ∉ paths w)
  /\ ("/no/such/dir" ∉ paths w)
  /\ exists srv w' inv,
       __init__ manifest None None P [] 60 true w = (Return srv, w')
       /\ docker_run (args srv) = Some inv
       /\ mounts inv = ["type=bind,src=/no/such/dir,dst=/no/such/dir,readonly";
                        "type=bind,src=/home/dev/example,dst=/sandbox"].
Proof.
  intros w manifest P. split; [set_solver|]. split; [set_solver|].
  do 3 eexists. split; [reflexivity|]. split; reflexivity.
Qed.

Lemma init_ignores_paths manifest name runtime_args P senv tmo rm w ps :
  fst (__init__ manifest name runtime_args P senv tmo rm (with_paths ps w))
  = fst (__init__ manifest name runtime_args P senv tmo rm w).
Proof.
  destruct (init_cases manifest name runtime_args P senv tmo rm w)
    as [[Hoff ->]|[Hoff ->]];
    destruct (init_cases manifest name runtime_args P senv tmo rm (with_paths ps w))
      as [[Hoff' ->]|[Hoff' ->]]; try congruence; reflexivity.
Qed.

(** C6, amended. The builder never consults the filesystem: its outcome is
    the same whatever paths exist, so a missing development source path or
    permission host path does not make it fail. The check is the factory's.
    When the travel server path does not exist, [create_travel_mcp_server]
    raises before the builder is invoked: [ValueError] when
    [OPENWEATHER_API_KEY] is unset or empty, [FileNotFoundError] naming the
    path otherwise. No consent request is issued, the environment and the
    filesystem are left as they were, no server object is returned; the only
    effect possible is the printed Amadeus warning, which precedes the
    check. *)
Theorem travel_factory_fails_before_build
    TRAVEL_SERVER_PATH resolved name w :
  TRAVEL_SERVER_PATH ∉ paths w ->
  (exists e w',
     create_travel_mcp_server TRAVEL_SERVER_PATH resolved name w = (Raise e, w')
     /\ e = (if env_truthy (environ w) "OPENWEATHER_API_KEY"
             then FileNotFoundError
                    ("Travel server not found at " +:+ TRAVEL_SERVER_PATH)
             else ValueError "Missing OPENWEATHER_API_KEY environment variable")
     /\ prompts w' = prompts w
     /\ environ w' = environ w
     /\ paths w' = paths w
     /\ (stdout w' = stdout w \/ stdout w' = stdout w ++ [amadeus_warning]))
  /\ (forall manifest nm runtime_args P senv tmo rm ps,
        fst (__init__ manifest nm runtime_args P senv tmo rm (with_paths ps w))
        = fst (__init__ manifest nm runtime_args P senv tmo rm w)).
Proof.
  intros Hmissing. split; [|intros; apply init_ignores_paths].
  unfold create_travel_mcp_server, bind at 1, get_world.
  destruct (env_truthy (environ w) "OPENWEATHER_API_KEY") eqn:Hkey;
    cbn [negb].
  - unfold bind at 1.
    destruct (env_truthy (environ w) "AMADEUS_API_KEY"
              && env_truthy (environ w) "AMADEUS_API_SECRET"); cbn [negb].
    + unfold ret, bind. unfold path_exists.
      rewrite bool_decide_eq_false_2 by assumption. cbn [negb raise].
      do 2 eexists. split; [reflexivity|]. auto 6.
    + unfold print, bind. unfold path_exists. cbn [paths].
      rewrite bool_decide_eq_false_2 by assumption. cbn [negb raise].
      do 2 eexists. split; [reflexivity|]. cbn. auto 6.
  - do 2 eexists. split; [reflexivity|]. auto 6.
Qed.

(** A host with the weather key set and no server directory. *)
Lemma travel_factory_fails_before_build_witness :
  let w := host weather_env ∅ allow_all in
  ("/opt/spendwise/mcp-server-travel" ∉ paths w)
  /\ (exists e w',
     create_travel_mcp_server "/opt/spendwise/mcp-server-travel"
       "/opt/spendwise/mcp-server-travel" "Travel" w = (Raise e, w')
     /\ e = (if env_truthy (environ w) "OPENWEATHER_API_KEY"
             then FileNotFoundError
                    ("Travel server not found at " +:+ "/opt/spendwise/mcp-server-travel")
             else ValueError "Missing OPENWEATHER_API_KEY environment variable")
     /\ prompts w' = prompts w
     /\ environ w' = environ w
     /\ paths w' = paths w
     /\ (stdout w' = stdout w \/ stdout w' = stdout w ++ [amadeus_warning]))
  /\ (forall manifest nm runtime_args P senv tmo rm ps,
        fst (__init__ manifest nm runtime_args P senv tmo rm (with_paths ps w))
        = fst (__init__ manifest nm runtime_args P senv tmo rm w)).
Proof.
  intros w.
  assert ("/opt/spendwise/mcp-server-travel" ∉ paths w) as H by set_solver.
  split; [exact H|].
  exact (travel_factory_fails_before_build "/opt/spendwise/mcp-server-travel"
           "/opt/spendwise/mcp-server-travel" "Travel" w H).
Defined.

(** With the weather key set, no Amadeus credentials and no server
    directory, the factory prints the warning and raises
    [FileNotFoundError]; nothing has been asked. *)
Example travel_missing_path :
  let r := create_travel_mcp_server "/opt/spendwise/mcp-server-travel"
             "/opt/spendwise/mcp-server-travel" "Travel"
             (host weather_env ∅ allow_all) in
  fst r = Raise (FileNotFoundError
                   "Travel server not found at /opt/spendwise/mcp-server-travel")
  /\ prompts (snd r) = []
  /\ stdout (snd r) = [amadeus_warning].
Proof. vm_compute. auto. Qed.

(** With the path present the factory builds: every request is put to the
    consent source and the source mount is part of the invocation. *)
Example travel_builds :
  let r := create_travel_mcp_server "/opt/spendwise/mcp-server-travel"
             "/opt/spendwise/mcp-server-travel" "Travel"
             (host weather_env {["/opt/spendwise/mcp-server-travel"]} first_only) in
  option_map mounts
    (match fst r with
     | Return srv => docker_run (args srv)
     | Raise _ => None
     end)
  = Some ["type=bind,src=/opt/spendwise/mcp-server-travel,dst=/sandbox"]
  /\ option_map env_vars
       (match fst r with
        | Return srv => docker_run (args srv)
        | Raise _ => None
        end)
     = Some ["PACKAGE=mcp-server-travel";
             "ALLOWED_EGRESS=test.api.amadeus.com:443";
             "PRE_INSTALLED=true";
             "EXE=sh -c 'pip install -q --break-system-packages /sandbox >&2 && python3 -m mcp_server_travel'"]
  /\ length (prompts (snd r)) = 18.
Proof. vm_compute. auto. Qed.

(** * Further properties of the builder and of the factories *)

(** ** Consent is asked anew at every construction *)

(** X1. Consent is never remembered from one construction to the next: a
    second construction of the same server on the host the first one left
    behind puts every requested permission to the consent source again, and
    builds from the answers to these new requests alone. *)
Theorem consent_asked_again manifest name runtime_args P senv tmo rm w srv w' :
  __init__ manifest name runtime_args P senv tmo rm w = (Return srv, w') ->
  exists srv2 w2,
    __init__ manifest name runtime_args P senv tmo rm w' = (Return srv2, w2)
    /\ prompts w' = prompts w ++ P
    /\ prompts w2 = prompts w ++ P ++ P
    /\ args srv2
       = build_args manifest runtime_args
           (granted (operator w) (length (prompts w) + length P) P) senv rm
           (environ w) (_sandbox_version w)
    /\ forall p, In p (granted (operator w) (length (prompts w) + length P) P)
                 <-> exists i, P !! i = Some p
                               /\ operator w (length (prompts w) + length P + i) p
                                  = true.
Proof.
  intros H. pose proof (init_returns_valid _ _ _ _ _ _ _ _ _ _ H) as Hall.
  apply init_returns in H as (_ & _ & ->).
  do 2 eexists. split; [apply init_valid, Hall|].
  cbn [prompts with_prompts]. split; [reflexivity|].
  split; [now rewrite app_assoc|]. split.
  - cbn [args built]. unfold consented_of.
    cbn [prompts with_prompts operator environ _sandbox_version].
    now rewrite length_app.
  - intros p. apply granted_lookup.
Qed.

(** The first construction is granted its first request; the second one, on
    the same host, is asked again and granted nothing. *)
Lemma consent_asked_again_witness :
  let w := host ∅ ∅ first_only in
  let srv := built network_manifest None None network_request [] 60 true w in
  __init__ network_manifest None None network_request [] 60 true w
  = (Return srv, with_prompts network_request w)
  /\ exists srv2 w2,
    __init__ network_manifest None None network_request [] 60 true
      (with_prompts network_request w) = (Return srv2, w2)
    /\ prompts (with_prompts network_request w) = prompts w ++ network_request
    /\ prompts w2 = prompts w ++ network_request ++ network_request
    /\ args srv2
       = build_args network_manifest None
           (granted (operator w) (length (prompts w) + length network_request)
              network_request) [] true (environ w) (_sandbox_version w)
    /\ forall p,
         In p (granted (operator w) (length (prompts w) + length network_request)
                 network_request)
         <-> exists i, network_request !! i = Some p
                       /\ operator w (length (prompts w) + length network_request + i) p
                          = true.
Proof.
  intros w srv. split; [reflexivity|].
  exact (consent_asked_again network_manifest None None network_request [] 60
           true w _ _ eq_refl).
Defined.

Example second_construction_denied :
  let build := __init__ network_manifest None None network_request [] 60 true in
  fst ((let! a := build in let! b := build in ret (args a, args b))
         (host ∅ ∅ first_only))
  = Return (["run"; "--rm"; "-i"; "--cap-add=NET_ADMIN"; "-e"; "PACKAGE=example-pkg";
             "-e"; "ALLOWED_EGRESS=db.example.com:443";
             "ghcr.io/guardiagent/mcp-sandbox-npm:latest"],
            ["run"; "--rm"; "-i"; "--cap-add=NET_ADMIN"; "-e"; "PACKAGE=example-pkg";
             "ghcr.io/guardiagent/mcp-sandbox-npm:latest"]).
Proof. vm_compute. reflexivity. Qed.

(** ** The shape of the argument vector *)

(** X2. The command of a built server is [docker]; the runtime reads from its
    argument vector the options [-i] and [--cap-add=NET_ADMIN], preceded by
    [--rm] exactly when removal after the run is asked for, the image
    reference of the manifest's registry at the current version, and the
    caller's runtime arguments as the positional arguments, verbatim.
    Whatever the runtime arguments contain, they are never read as options:
    building with other runtime arguments gives the same options, mounts,
    environment and image. *)
Theorem runtime_args_stay_positional
    manifest name runtime_args P senv tmo rm w srv w' :
  __init__ manifest name runtime_args P senv tmo rm w = (Return srv, w') ->
  command srv = "docker"
  /\ exists inv,
       docker_run (args srv) = Some inv
       /\ flags inv = (if rm then ["--rm"] else []) ++ ["-i"; "--cap-add=NET_ADMIN"]
       /\ image inv
          = "ghcr.io/guardiagent/mcp-sandbox-"
            +:+ str_registry (registry (fields manifest))
            +:+ ":" +:+ _sandbox_version w
       /\ arguments inv = match runtime_args with Some l => l | None => [] end
       /\ forall other,
            exists srv' inv',
              __init__ manifest name (Some other) P senv tmo rm w = (Return srv', w')
              /\ docker_run (args srv') = Some inv'
              /\ flags inv' = flags inv
              /\ mounts inv' = mounts inv
              /\ env_vars inv' = env_vars inv
              /\ image inv' = image inv
              /\ arguments inv' = other.
Proof.
  intros H. pose proof (init_returns_valid _ _ _ _ _ _ _ _ _ _ H) as Hall.
  apply init_returns in H as (_ & -> & ->).
  split; [reflexivity|]. eexists.
  split; [apply docker_run_build_args|].
  cbn [flags image arguments mounts env_vars].
  do 3 (split; [reflexivity|]).
  intros other. do 2 eexists. split; [apply init_valid, Hall|].
  cbn [args built]. split; [apply docker_run_build_args|].
  cbn [flags image arguments mounts env_vars]. auto 6.
Qed.

Lemma runtime_args_stay_positional_witness :
  let w := host home_env ∅ allow_all in
  let ra := Some ["-e"; "ALLOWED_EGRESS=0.0.0.0:1"; "--mount"; "type=bind,src=/,dst=/host"] in
  let srv := built mixed_manifest None ra mixed_request [] 60 true w in
  __init__ mixed_manifest None ra mixed_request [] 60 true w
  = (Return srv, with_prompts mixed_request w)
  /\ command srv = "docker"
  /\ exists inv,
       docker_run (args srv) = Some inv
       /\ flags inv = ["--rm"] ++ ["-i"; "--cap-add=NET_ADMIN"]
       /\ image inv
          = "ghcr.io/guardiagent/mcp-sandbox-"
            +:+ str_registry (registry (fields mixed_manifest))
            +:+ ":" +:+ _sandbox_version w
       /\ arguments inv = match ra with Some l => l | None => [] end
       /\ forall other,
            exists srv' inv',
              __init__ mixed_manifest None (Some other) mixed_request [] 60 true w
              = (Return srv', with_prompts mixed_request w)
              /\ docker_run (args srv') = Some inv'
              /\ flags inv' = flags inv
              /\ mounts inv' = mounts inv
              /\ env_vars inv' = env_vars inv
              /\ image inv' = image inv
              /\ arguments inv' = other.
Proof.
  intros w ra srv. split; [reflexivity|].
  exact (runtime_args_stay_positional mixed_manifest None ra mixed_request []
           60 true w _ _ eq_refl).
Defined.

(** Runtime arguments that look like options stay behind the image. *)
Example option_like_runtime_args :
  option_map (fun inv => (mounts inv, env_vars inv, arguments inv))
    (docker_run
       (args (built network_manifest None
                (Some ["-e"; "ALLOWED_EGRESS=0.0.0.0:1"]) [] [] 60 true
                (host ∅ ∅ allow_all))))
  = Some ([], ["PACKAGE=example-pkg"], ["-e"; "ALLOWED_EGRESS=0.0.0.0:1"]).
Proof. reflexivity. Qed.

(** ** The image version *)

(** X3. [set_sandbox_version] changes the tag of the image of every server
    constructed afterwards and nothing else: the same construction after the
    call returns a server whose image reference ends in the new version, with
    the same options, mounts, environment and positional arguments and the
    same consent requests; a server constructed before the call keeps the
    image it was built with. *)
Theorem sandbox_version_selects_image
    version manifest name runtime_args P senv tmo rm w srv w' :
  __init__ manifest name runtime_args P senv tmo rm w = (Return srv, w') ->
  exists srv2 w2 inv inv2,
    (do! set_sandbox_version version in
     __init__ manifest name runtime_args P senv tmo rm) w = (Return srv2, w2)
    /\ docker_run (args srv) = Some inv
    /\ docker_run (args srv2) = Some inv2
    /\ image inv2
       = "ghcr.io/guardiagent/mcp-sandbox-"
         +:+ str_registry (registry (fields manifest)) +:+ ":" +:+ version
    /\ flags inv2 = flags inv
    /\ mounts inv2 = mounts inv
    /\ env_vars inv2 = env_vars inv
    /\ arguments inv2 = arguments inv
    /\ prompts w2 = prompts w'
    /\ _sandbox_version w2 = version
    /\ (let! s := __init__ manifest name runtime_args P senv tmo rm in
        do! set_sandbox_version version in
        ret s) w
       = (Return srv, snd (set_sandbox_version version w')).
Proof.
  intros H. pose proof (init_returns_valid _ _ _ _ _ _ _ _ _ _ H) as Hall.
  pose proof H as H0. apply init_returns in H0 as (_ & -> & ->).
  do 4 eexists. split.
  { unfold bind at 1. cbn [set_sandbox_version]. apply init_valid, Hall. }
  cbn [args built]. split; [apply docker_run_build_args|].
  split; [apply docker_run_build_args|].
  cbn [flags image arguments mounts env_vars environ _sandbox_version prompts
       with_prompts].
  unfold consented_of. cbn [operator prompts].
  do 7 (split; [reflexivity|]).
  unfold bind at 1. rewrite H. reflexivity.
Qed.

Lemma sandbox_version_selects_image_witness :
  let w := host home_env ∅ allow_all in
  let srv := built mixed_manifest None None mixed_request [] 60 true w in
  __init__ mixed_manifest None None mixed_request [] 60 true w
  = (Return srv, with_prompts mixed_request w)
  /\ exists srv2 w2 inv inv2,
    (do! set_sandbox_version "1.4.2" in
     __init__ mixed_manifest None None mixed_request [] 60 true) w
    = (Return srv2, w2)
    /\ docker_run (args srv) = Some inv
    /\ docker_run (args srv2) = Some inv2
    /\ image inv2
       = "ghcr.io/guardiagent/mcp-sandbox-"
         +:+ str_registry (registry (fields mixed_manifest)) +:+ ":" +:+ "1.4.2"
    /\ flags inv2 = flags inv
    /\ mounts inv2 = mounts inv
    /\ env_vars inv2 = env_vars inv
    /\ arguments inv2 = arguments inv
    /\ prompts w2 = prompts (with_prompts mixed_request w)
    /\ _sandbox_version w2 = "1.4.2"
    /\ (let! s := __init__ mixed_manifest None None mixed_request [] 60 true in
        do! set_sandbox_version "1.4.2" in
        ret s) w
       = (Return srv,
          snd (set_sandbox_version "1.4.2" (with_prompts mixed_request w))).
Proof.
  intros w srv. split; [reflexivity|].
  exact (sandbox_version_selects_image "1.4.2" mixed_manifest None None
           mixed_request [] 60 true w _ _ eq_refl).
Defined.

(** The default version is [latest]; after [set_sandbox_version("1.4.2")]
    the image carries the new tag. *)
Example version_tags :
  let build := __init__ network_manifest None None [] [] 60 true in
  fst ((let! a := build in
        do! set_sandbox_version "1.4.2" in
        let! b := build in
        ret (option_map image (docker_run (args a)),
             option_map image (docker_run (args b))))
         (host ∅ ∅ allow_all))
  = Return (Some "ghcr.io/guardiagent/mcp-sandbox-npm:latest",
            Some "ghcr.io/guardiagent/mcp-sandbox-npm:1.4.2").
Proof. vm_compute. reflexivity. Qed.

(** ** Consent can only take away *)

(** X4. Whatever the consent source answers, the invocation exposes no more
    than the invocation built with every request granted: its mounts, the
    pairs of its allow-list and its pass-through assignments are those of
    the fully granted invocation with some left out and the order kept,
    and all its other environment assignments, its options, its image and
    its positional arguments are the same. *)
Theorem consent_only_removes manifest name runtime_args P senv tmo rm w srv w' :
  __init__ manifest name runtime_args P senv tmo rm w = (Return srv, w') ->
  exists srv_all inv inv_all pairs pairs_all passed passed_all rest,
    fst (__init__ manifest name runtime_args P senv tmo rm
           (with_operator allow_all w)) = Return srv_all
    /\ docker_run (args srv) = Some inv
    /\ docker_run (args srv_all) = Some inv_all
    /\ subsequence (mounts inv) (mounts inv_all)
    /\ env_vars inv
       = ("PACKAGE=" +:+ package_name (fields manifest))
         :: allow_list_entry pairs ++ passed ++ rest
    /\ env_vars inv_all
       = ("PACKAGE=" +:+ package_name (fields manifest))
         :: allow_list_entry pairs_all ++ passed_all ++ rest
    /\ subsequence pairs pairs_all
    /\ subsequence passed passed_all
    /\ flags inv = flags inv_all
    /\ image inv = image inv_all
    /\ arguments inv = arguments inv_all.
Proof.
  intros H. pose proof (init_returns_valid _ _ _ _ _ _ _ _ _ _ H) as Hall.
  apply init_returns in H as (_ & -> & _).
  pose proof (granted_subsequence (operator w) (length (prompts w)) P) as Hsub.
  fold (consented_of w P) in Hsub.
  exists (built manifest name runtime_args P senv tmo rm (with_operator allow_all w)).
  do 2 eexists.
  exists (domain_pairs (consented_of w P) ++ host_pairs (consented_of w P)),
         (domain_pairs P ++ host_pairs P),
         (passed_envs (environ w) (consented_of w P)),
         (passed_envs (environ w) P),
         (static_envs senv ++ dev_envs manifest).
  split; [now rewrite init_valid|].
  cbn [args built]. split; [apply docker_run_build_args|].
  assert (consented_of (with_operator allow_all w) P = P) as Hfull
    by apply granted_allow_all.
  rewrite Hfull. cbn [environ _sandbox_version with_operator].
  split; [apply docker_run_build_args|].
  cbn [flags image arguments mounts env_vars].
  split.
  { apply subsequence_app; [|apply subsequence_refl].
    apply subsequence_flat_map, Hsub. }
  split; [unfold allow_list_entry; now rewrite egress_envs_cases|].
  split; [unfold allow_list_entry; now rewrite egress_envs_cases|].
  split.
  { apply subsequence_app; apply subsequence_flat_map, Hsub. }
  split; [apply subsequence_flat_map, Hsub|]. auto.
Qed.

Lemma consent_only_removes_witness :
  let w := host home_env ∅ first_only in
  let srv := built mixed_manifest None None mixed_request [] 60 true w in
  __init__ mixed_manifest None None mixed_request [] 60 true w
  = (Return srv, with_prompts mixed_request w)
  /\ exists srv_all inv inv_all pairs pairs_all passed passed_all rest,
    fst (__init__ mixed_manifest None None mixed_request [] 60 true
           (with_operator allow_all w)) = Return srv_all
    /\ docker_run (args srv) = Some inv
    /\ docker_run (args srv_all) = Some inv_all
    /\ subsequence (mounts inv) (mounts inv_all)
    /\ env_vars inv
       = ("PACKAGE=" +:+ package_name (fields mixed_manifest))
         :: allow_list_entry pairs ++ passed ++ rest
    /\ env_vars inv_all
       = ("PACKAGE=" +:+ package_name (fields mixed_manifest))
         :: allow_list_entry pairs_all ++ passed_all ++ rest
    /\ subsequence pairs pairs_all
    /\ subsequence passed passed_all
    /\ flags inv = flags inv_all
    /\ image inv = image inv_all
    /\ arguments inv = arguments inv_all.
Proof.
  intros w srv. split; [reflexivity|].
  exact (consent_only_removes mixed_manifest None None mixed_request [] 60
           true w _ _ eq_refl).
Defined.

(** ** Lemmas on the factories *)

Lemma env_truthy_value env n :
  env_truthy env n = true <-> exists v, env !! n = Some v /\ v <> "".
Proof.
  unfold env_truthy. destruct (env !! n) as [v|].
  - rewrite negb_true_iff. split.
    + intros H. exists v. split; [reflexivity|]. now apply String.eqb_neq.
    + intros (v' & Hv & Hne). injection Hv as <-. now apply String.eqb_neq.
  - split; [discriminate|]. intros (v & Hv & _). discriminate.
Qed.

Lemma In_egress_envs c e :
  In e (egress_envs c) -> exists s, e = "ALLOWED_EGRESS=" +:+ s.
Proof.
  unfold egress_envs. destruct (String.eqb (allowed_egress c) ""); [intros []|].
  intros [<-|[]]. eauto.
Qed.

(** The environment assignments of a server built without static
    variables. *)
Lemma built_env_cases manifest name runtime_args P tmo rm w inv e :
  docker_run (args (built manifest name runtime_args P [] tmo rm w)) = Some inv ->
  In e (env_vars inv) ->
  e = "PACKAGE=" +:+ package_name (fields manifest)
  \/ (exists s, e = "ALLOWED_EGRESS=" +:+ s)
  \/ (exists i n, consented_at w P i (EnvironmentVariable n)
                  /\ e = n +:+ "=" +:+ str_optional (environ w !! n))
  \/ In e (dev_envs manifest).
Proof.
  cbn [args built]. rewrite docker_run_build_args. intros [= <-].
  cbn [env_vars static_envs map app]. intros [<-|He]; [now left|]. right.
  rewrite !in_app_iff in He. destruct He as [He|[He|He]].
  - left. eapply In_egress_envs, He.
  - right. left. apply In_passed_envs in He as (n & Hn & ->).
    apply consented_of_lookup in Hn as (i & Hi). eauto.
  - right. right. exact He.
Qed.

Lemma print_frame line w :
  operator (snd (print line w)) = operator w
  /\ prompts (snd (print line w)) = prompts w
  /\ environ (snd (print line w)) = environ w
  /\ paths (snd (print line w)) = paths w
  /\ stdout (snd (print line w)) = stdout w ++ [line].
Proof. cbn. auto. Qed.

(** The travel factory past its two checks. *)
Lemma travel_factory_past_checks tp rp name w :
  env_truthy (environ w) "OPENWEATHER_API_KEY" = true ->
  tp ∈ paths w ->
  let has_amadeus :=
    env_truthy (environ w) "AMADEUS_API_KEY"
    && env_truthy (environ w) "AMADEUS_API_SECRET" in
  create_travel_mcp_server tp rp name w
  = __init__ (travel_manifest rp) (Some name) (Some [])
      (travel_runtime_perms has_amadeus) [] 60 true
      (if has_amadeus then w else snd (print amadeus_warning w)).
Proof.
  intros Hkey Hpath has_amadeus.
  unfold create_travel_mcp_server, bind at 1, get_world.
  rewrite Hkey. cbn [negb]. unfold bind at 1. fold has_amadeus.
  destruct has_amadeus; cbn [negb].
  - unfold ret, bind. unfold path_exists.
    rewrite bool_decide_eq_true_2 by assumption. reflexivity.
  - unfold print, bind. unfold path_exists. cbn [paths].
    rewrite bool_decide_eq_true_2 by assumption. reflexivity.
Qed.

Lemma amadeus_requested b n :
  n = "AMADEUS_API_KEY" \/ n = "AMADEUS_API_SECRET" ->
  In (EnvironmentVariable n) (travel_runtime_perms b) <-> b = true.
Proof.
  intros [-> | ->]; destruct b; (split; [intros H|intros H]);
    try reflexivity; try discriminate.
  - do 18 right. now left.
  - cbn in H. repeat (destruct H as [H|H]; [discriminate|]). destruct H.
  - do 19 right. now left.
  - cbn in H. repeat (destruct H as [H|H]; [discriminate|]). destruct H.
Qed.

(** ** The travel factory, when it builds *)

(** X5. When [OPENWEATHER_API_KEY] is set and not empty, the travel server
    path exists and the requests pass the validation,
    [create_travel_mcp_server] returns a server. It requests the two Amadeus
    variables exactly when both are set and not empty, and prints the
    warning exactly when they are not; every request of its list is put to
    the consent source once, in order; the environment and the filesystem
    are left as they were. The invocation mounts the resolved server
    directory onto [/sandbox] and nothing else, and has no positional
    argument. *)
Theorem travel_factory_builds tp rp name w :
  env_truthy (environ w) "OPENWEATHER_API_KEY" = true ->
  tp ∈ paths w ->
  let has_amadeus :=
    env_truthy (environ w) "AMADEUS_API_KEY"
    && env_truthy (environ w) "AMADEUS_API_SECRET" in
  (forall p, In p (travel_runtime_perms has_amadeus) ->
     validate_with_manifest_perms p
       [MCP_AC_NETWORK_CLIENT; MCP_AC_SYSTEM_ENV_READ] = true) ->
  exists srv w' inv,
    create_travel_mcp_server tp rp name w = (Return srv, w')
    /\ prompts w' = prompts w ++ travel_runtime_perms has_amadeus
    /\ (In (EnvironmentVariable "AMADEUS_API_KEY") (travel_runtime_perms has_amadeus)
        <-> has_amadeus = true)
    /\ (In (EnvironmentVariable "AMADEUS_API_SECRET") (travel_runtime_perms has_amadeus)
        <-> has_amadeus = true)
    /\ stdout w' = stdout w ++ (if has_amadeus then [] else [amadeus_warning])
    /\ environ w' = environ w
    /\ paths w' = paths w
    /\ docker_run (args srv) = Some inv
    /\ mounts inv = ["type=bind,src=" +:+ rp +:+ ",dst=/sandbox"]
    /\ arguments inv = [].
Proof.
  intros Hkey Hpath has_amadeus Hvalid.
  pose proof (travel_factory_past_checks tp rp name w Hkey Hpath) as Hrun.
  cbv zeta in Hrun. fold has_amadeus in Hrun.
  assert (fs_mounts (consented_of
            (if has_amadeus then w else snd (print amadeus_warning w))
            (travel_runtime_perms has_amadeus)) = []) as Hfs.
  { destruct (fs_mounts _) as [|m l] eqn:E; [reflexivity|].
    assert (In m (m :: l)) as Hin by now left. rewrite <- E in Hin.
    apply In_fs_mounts in Hin as (path & cp & r & wr & Hp & _).
    apply granted_In in Hp. exfalso. clear -Hp.
    destruct has_amadeus; cbn in Hp;
      repeat (destruct Hp as [Hp|Hp]; [discriminate|]); destruct Hp. }
  rewrite Hrun, (init_valid (travel_manifest rp) _ _ _ _ _ _ _ Hvalid).
  do 3 eexists. split; [reflexivity|].
  cbn [args built]. rewrite docker_run_build_args, Hfs.
  cbn [mounts arguments positional dev_mounts travel_manifest code_mount app].
  split; [destruct has_amadeus; reflexivity|].
  split; [apply amadeus_requested; now left|].
  split; [apply amadeus_requested; now right|].
  split.
  { destruct has_amadeus; cbn [stdout with_prompts print snd];
      now rewrite ?app_nil_r. }
  split; [destruct has_amadeus; reflexivity|].
  split; [destruct has_amadeus; reflexivity|].
  split; [reflexivity|]. split; reflexivity.
Qed.

(** A host with the weather key and the server directory, no Amadeus
    credentials. *)
Lemma travel_factory_builds_witness :
  let tp := "/opt/spendwise/mcp-server-travel" in
  let w := host weather_env {[tp]} first_only in
  env_truthy (environ w) "OPENWEATHER_API_KEY" = true
  /\ tp ∈ paths w
  /\ exists srv w' inv,
    create_travel_mcp_server tp tp "Travel" w = (Return srv, w')
    /\ prompts w' = prompts w ++ travel_runtime_perms false
    /\ (In (EnvironmentVariable "AMADEUS_API_KEY") (travel_runtime_perms false)
        <-> false = true)
    /\ (In (EnvironmentVariable "AMADEUS_API_SECRET") (travel_runtime_perms false)
        <-> false = true)
    /\ stdout w' = stdout w ++ [amadeus_warning]
    /\ environ w' = environ w
    /\ paths w' = paths w
    /\ docker_run (args srv) = Some inv
    /\ mounts inv = ["type=bind,src=" +:+ tp +:+ ",dst=/sandbox"]
    /\ arguments inv = [].
Proof.
  intros tp w.
  assert (tp ∈ paths w) as Hpath by set_solver.
  split; [reflexivity|]. split; [exact Hpath|].
  refine (travel_factory_builds tp tp "Travel" w eq_refl Hpath _).
  intros p Hp. cbn in Hp.
  repeat (destruct Hp as [<-|Hp]; [reflexivity|]). destruct Hp.
Defined.




(** The environment the travel sandbox receives on that host. *)
Example travel_environment :
  let tp := "/opt/spendwise/mcp-server-travel" in
  let env := <["AMADEUS_API_KEY" := "am-key"]>
               (<["AMADEUS_API_SECRET" := "am-secret"]> weather_env) in
  option_map (fun inv => drop 2 (env_vars inv))
    (match fst (create_travel_mcp_server tp tp "Travel" (host env {[tp]} allow_all)) with
     | Return srv => docker_run (args srv)
     | Raise _ => None
     end)
  = Some ["OPENWEATHER_API_KEY=k-123"; "AMADEUS_API_KEY=am-key";
          "AMADEUS_API_SECRET=am-secret"; "PRE_INSTALLED=true";
          "EXE=sh -c 'pip install -q --break-system-packages /sandbox >&2 && python3 -m mcp_server_travel'"].
Proof. vm_compute. reflexivity. Qed.

(** ** The SMS factory *)

Lemma env_truthy_false env n :
  env_truthy env n = false <-> env !! n = None \/ env !! n = Some "".
Proof.
  unfold env_truthy. destruct (env !! n) as [v|].
  - rewrite negb_false_iff, String.eqb_eq. split.
    + intros ->. now right.
    + intros [H|H]; [discriminate|now injection H].
  - split; [now left|reflexivity].
Qed.

Lemma filter_subsequence {A} (f : A -> bool) l : subsequence (List.filter f l) l.
Proof.
  induction l as [|x l IH]; cbn; [constructor|].
  destruct (f x); constructor; assumption.
Qed.

Lemma missing_vars_nil env :
  missing_vars env = [] <-> forall v, In v required_vars -> env_truthy env v = true.
Proof.
  unfold missing_vars. split.
  - intros Hnil v Hv. destruct (env_truthy env v) eqn:E; [reflexivity|].
    assert (In v (List.filter (fun var => negb (env_truthy env var)) required_vars))
      as Hin by (apply filter_In; split; [assumption|now rewrite E]).
    rewrite Hnil in Hin. destruct Hin.
  - intros Hall.
    destruct (List.filter _ required_vars) as [|v l] eqn:E; [reflexivity|].
    assert (In v (v :: l)) as Hin by now left. rewrite <- E in Hin.
    apply filter_In in Hin as [Hv Hf]. rewrite (Hall v Hv) in Hf. discriminate.
Qed.

(** X7. When a required Twilio variable is unset or empty,
    [create_sms_mcp_server] raises [ValueError] with the message
    [Missing environment variables: ] followed by exactly the required
    variables that are unset or empty, comma-separated in the order account
    SID, auth token, phone number. It does so before looking at the server
    path and leaves the host as it was: no consent request is issued. *)
Theorem sms_factory_names_missing sp rp name w :
  (exists v, In v required_vars /\ env_truthy (environ w) v = false) ->
  exists missing,
    create_sms_mcp_server sp rp name w
    = (Raise (ValueError ("Missing environment variables: "
                          +:+ String.concat ", " missing)), w)
    /\ missing <> []
    /\ subsequence missing required_vars
    /\ forall v, In v missing
                 <-> In v required_vars
                     /\ (environ w !! v = None \/ environ w !! v = Some "").
Proof.
  intros (v0 & Hv0 & Hf0). exists (missing_vars (environ w)).
  assert (In v0 (missing_vars (environ w))) as Hin
    by (apply filter_In; split; [assumption|now rewrite Hf0]).
  split.
  - unfold create_sms_mcp_server, bind, get_world.
    destruct (missing_vars (environ w)) as [|m l]; [destruct Hin|reflexivity].
  - split; [intros Hnil; rewrite Hnil in Hin; destruct Hin|].
    split; [apply filter_subsequence|].
    intros v. unfold missing_vars. rewrite filter_In, negb_true_iff.
    now rewrite env_truthy_false.
Qed.

(** The account SID and the auth token are set, the phone number is not:
    the condition under which [api/main.py] and [scripts/bank_sync.py] call
    the factory. *)
Lemma sms_factory_names_missing_witness :
  let env := delete "TWILIO_PHONE_NUMBER" twilio_env in
  let w := host env ∅ allow_all in
  (exists v, In v required_vars /\ env_truthy (environ w) v = false)
  /\ exists missing,
    create_sms_mcp_server "/opt/spendwise/mcp-server-sms"
      "/opt/spendwise/mcp-server-sms" "SpendWise SMS" w
    = (Raise (ValueError ("Missing environment variables: "
                          +:+ String.concat ", " missing)), w)
    /\ missing <> []
    /\ subsequence missing required_vars
    /\ forall v, In v missing
                 <-> In v required_vars
                     /\ (environ w !! v = None \/ environ w !! v = Some "").
Proof.
  intros env w.
  assert (exists v, In v required_vars /\ env_truthy (environ w) v = false) as H.
  { exists "TWILIO_PHONE_NUMBER". split; [cbn; tauto|reflexivity]. }
  split; [exact H|].
  exact (sms_factory_names_missing "/opt/spendwise/mcp-server-sms"
           "/opt/spendwise/mcp-server-sms" "SpendWise SMS" w H).
Defined.

Example sms_missing_phone_number :
  fst (create_sms_mcp_server "/opt/spendwise/mcp-server-sms"
         "/opt/spendwise/mcp-server-sms" "SpendWise SMS"
         (host (delete "TWILIO_PHONE_NUMBER" twilio_env) ∅ allow_all))
  = Raise (ValueError "Missing environment variables: TWILIO_PHONE_NUMBER").
Proof. vm_compute. reflexivity. Qed.

Example sms_missing_all :
  fst (create_sms_mcp_server "/opt/spendwise/mcp-server-sms"
         "/opt/spendwise/mcp-server-sms" "SpendWise SMS"
         (host ∅ ∅ allow_all))
  = Raise (ValueError
             "Missing environment variables: TWILIO_ACCOUNT_SID, TWILIO_AUTH_TOKEN, TWILIO_PHONE_NUMBER").
Proof. vm_compute. reflexivity. Qed.

Lemma sms_factory_past_checks sp rp name w :
  (forall v, In v required_vars -> env_truthy (environ w) v = true) ->
  sp ∈ paths w ->
  create_sms_mcp_server sp rp name w
  = __init__ (sms_manifest rp) (Some name) (Some []) sms_runtime_perms [] 60 true w.
Proof.
  intros Hall Hpath. apply missing_vars_nil in Hall.
  unfold create_sms_mcp_server, bind, get_world. rewrite Hall.
  unfold path_exists. rewrite bool_decide_eq_true_2 by assumption. reflexivity.
Qed.

(** X8. When the three required Twilio variables are set and not empty, the
    server path exists and the requests pass the validation,
    [create_sms_mcp_server] returns a server after putting its seven
    requests to the consent source. Each required variable whose request is
    granted is passed with the host's value. [NOTIFICATION_PHONE] is
    requested whether or not the host has it: when its request is granted
    and the host does not have it, the sandbox receives the assignment
    [NOTIFICATION_PHONE=None]. *)
Theorem sms_factory_builds sp rp name w :
  (forall v, In v required_vars -> env_truthy (environ w) v = true) ->
  sp ∈ paths w ->
  (forall p, In p sms_runtime_perms ->
     validate_with_manifest_perms p
       [MCP_AC_NETWORK_CLIENT; MCP_AC_SYSTEM_ENV_READ] = true) ->
  exists srv inv,
    create_sms_mcp_server sp rp name w
    = (Return srv, with_prompts (prompts w ++ sms_runtime_perms) w)
    /\ docker_run (args srv) = Some inv
    /\ mounts inv = ["type=bind,src=" +:+ rp +:+ ",dst=/sandbox"]
    /\ (forall i n,
          In n required_vars ->
          consented_at w sms_runtime_perms i (EnvironmentVariable n) ->
          exists v, environ w !! n = Some v /\ v <> ""
                    /\ In (n +:+ "=" +:+ v) (env_vars inv))
    /\ In (EnvironmentVariable "NOTIFICATION_PHONE") sms_runtime_perms
    /\ (operator w (length (prompts w) + 6) (EnvironmentVariable "NOTIFICATION_PHONE")
        = true ->
        environ w !! "NOTIFICATION_PHONE" = None ->
        In "NOTIFICATION_PHONE=None" (env_vars inv)).
Proof.
  intros Hall Hpath Hvalid.
  rewrite (sms_factory_past_checks sp rp name w Hall Hpath),
    (init_valid (sms_manifest rp) _ _ _ _ _ _ _ Hvalid).
  do 2 eexists. split; [reflexivity|].
  split; [cbn [args built]; apply docker_run_build_args|].
  cbn [mounts env_vars]. split.
  { assert (fs_mounts (consented_of w sms_runtime_perms) = []) as ->.
    { destruct (fs_mounts _) as [|m l] eqn:E; [reflexivity|].
      assert (In m (m :: l)) as Hin by now left. rewrite <- E in Hin.
      apply In_fs_mounts in Hin as (path & cp & r & wr & Hp & _).
      apply granted_In in Hp. exfalso. cbn in Hp.
      repeat (destruct Hp as [Hp|Hp]; [discriminate|]). destruct Hp. }
    reflexivity. }
  split; [|split].
  - intros i n Hn Hi. apply Hall, env_truthy_value in Hn as (v & Hv & Hne).
    exists v. split; [assumption|]. split; [assumption|].
    right. rewrite !in_app_iff. right. left.
    apply In_passed_envs. exists n. split.
    + apply consented_of_lookup. eauto.
    + now rewrite Hv.
  - do 6 right. now left.
  - intros Hop Hnone. right. rewrite !in_app_iff. right. left.
    apply In_passed_envs. exists "NOTIFICATION_PHONE". split.
    + apply consented_of_lookup. exists 6. split; [reflexivity|assumption].
    + now rewrite Hnone.
Qed.

Lemma sms_factory_builds_witness :
  let sp := "/opt/spendwise/mcp-server-sms" in
  let w := host twilio_env {[sp]} allow_all in
  (forall v, In v required_vars -> env_truthy (environ w) v = true)
  /\ sp ∈ paths w
  /\ exists srv inv,
    create_sms_mcp_server sp sp "SpendWise SMS" w
    = (Return srv, with_prompts (prompts w ++ sms_runtime_perms) w)
    /\ docker_run (args srv) = Some inv
    /\ mounts inv = ["type=bind,src=" +:+ sp +:+ ",dst=/sandbox"]
    /\ (forall i n,
          In n required_vars ->
          consented_at w sms_runtime_perms i (EnvironmentVariable n) ->
          exists v, environ w !! n = Some v /\ v <> ""
                    /\ In (n +:+ "=" +:+ v) (env_vars inv))
    /\ In (EnvironmentVariable "NOTIFICATION_PHONE") sms_runtime_perms
    /\ (operator w (length (prompts w) + 6) (EnvironmentVariable "NOTIFICATION_PHONE")
        = true ->
        environ w !! "NOTIFICATION_PHONE" = None ->
        In "NOTIFICATION_PHONE=None" (env_vars inv)).
Proof.
  intros sp w.
  assert (forall v, In v required_vars -> env_truthy (environ w) v = true) as Hall.
  { intros v [<-|[<-|[<-|[]]]]; reflexivity. }
  assert (sp ∈ paths w) as Hpath by set_solver.
  split; [exact Hall|]. split; [exact Hpath|].
  refine (sms_factory_builds sp sp "SpendWise SMS" w Hall Hpath _).
  intros p Hp. cbn in Hp.
  repeat (destruct Hp as [<-|Hp]; [reflexivity|]). destruct Hp.
Defined.

(** The environment the SMS sandbox receives on a host with the three
    credentials and no [NOTIFICATION_PHONE], every request granted. *)
Example sms_environment :
  let sp := "/opt/spendwise/mcp-server-sms" in
  option_map (fun inv => drop 2 (env_vars inv))
    (match fst (create_sms_mcp_server sp sp "SpendWise SMS"
                  (host twilio_env {[sp]} allow_all)) with
     | Return srv => docker_run (args srv)
     | Raise _ => None
     end)
  = Some ["TWILIO_ACCOUNT_SID=AC123"; "TWILIO_AUTH_TOKEN=tok";
          "TWILIO_PHONE_NUMBER=+15550100"; "NOTIFICATION_PHONE=None";
          "PRE_INSTALLED=true";
          "EXE=sh -c 'pip install -q --break-system-packages /sandbox >&2 && python3 -m mcp_server_sms'"].
Proof. vm_compute. reflexivity. Qed.

(** ** The stock factory *)

(** X9. [create_stock_mcp_server] checks the environment before the
    filesystem and both before the builder: with [FMP_API_KEY] unset or
    empty it raises [ValueError] whether or not the server path exists, with
    the key set and the path missing it raises [FileNotFoundError] naming
    the path; in both cases the host is left as it was and no consent
    request is issued. *)
Theorem stock_factory_fails_fast sp rp name w :
  env_truthy (environ w) "FMP_API_KEY" = false \/ sp ∉ paths w ->
  create_stock_mcp_server sp rp name w
  = (Raise (if env_truthy (environ w) "FMP_API_KEY"
            then FileNotFoundError ("Stock server not found at " +:+ sp)
            else ValueError "Missing environment variable: FMP_API_KEY"),
     w).
Proof.
  intros H. unfold create_stock_mcp_server, bind, get_world.
  destruct (env_truthy (environ w) "FMP_API_KEY"); cbn [negb]; [|reflexivity].
  destruct H as [H|H]; [discriminate|].
  unfold path_exists. rewrite bool_decide_eq_false_2 by assumption. reflexivity.
Qed.

(** The key is set, the server directory is missing. *)
Lemma stock_factory_fails_fast_witness :
  let sp := "/opt/spendwise/mcp-server-stock" in
  let w := host fmp_env ∅ allow_all in
  (env_truthy (environ w) "FMP_API_KEY" = false \/ sp ∉ paths w)
  /\ create_stock_mcp_server sp sp "SpendWise Stock" w
     = (Raise (if env_truthy (environ w) "FMP_API_KEY"
               then FileNotFoundError ("Stock server not found at " +:+ sp)
               else ValueError "Missing environment variable: FMP_API_KEY"),
        w).
Proof.
  intros sp w.
  assert (env_truthy (environ w) "FMP_API_KEY" = false \/ sp ∉ paths w) as H
    by (right; set_solver).
  split; [exact H|].
  exact (stock_factory_fails_fast sp sp "SpendWise Stock" w H).
Defined.

Example stock_missing_key_and_path :
  fst (create_stock_mcp_server "/opt/spendwise/mcp-server-stock"
         "/opt/spendwise/mcp-server-stock" "SpendWise Stock"
         (host ∅ ∅ allow_all))
  = Raise (ValueError "Missing environment variable: FMP_API_KEY").
Proof. vm_compute. reflexivity. Qed.

Lemma stock_factory_past_checks sp rp name w :
  env_truthy (environ w) "FMP_API_KEY" = true ->
  sp ∈ paths w ->
  create_stock_mcp_server sp rp name w
  = __init__ (stock_manifest rp) (Some name) (Some []) stock_runtime_perms [] 60
      true w.
Proof.
  intros Hkey Hpath. unfold create_stock_mcp_server, bind, get_world.
  rewrite Hkey. cbn [negb]. unfold path_exists.
  rewrite bool_decide_eq_true_2 by assumption. reflexivity.
Qed.

(** X10. When [FMP_API_KEY] is set and not empty, the server path exists and
    the requests pass the validation, [create_stock_mcp_server] returns a
    server after putting its six requests to the consent source. The key, if
    its request is granted, is passed with the host's value; the only mount
    is the server directory onto [/sandbox]; and when all five network
    requests are granted the allow-list names the four domains first and
    the loopback address last, although the address is requested third. *)
Theorem stock_factory_builds sp rp name w :
  env_truthy (environ w) "FMP_API_KEY" = true ->
  sp ∈ paths w ->
  (forall p, In p stock_runtime_perms ->
     validate_with_manifest_perms p
       [MCP_AC_NETWORK_CLIENT; MCP_AC_SYSTEM_ENV_READ] = true) ->
  exists srv inv,
    create_stock_mcp_server sp rp name w
    = (Return srv, with_prompts (prompts w ++ stock_runtime_perms) w)
    /\ docker_run (args srv) = Some inv
    /\ mounts inv = ["type=bind,src=" +:+ rp +:+ ",dst=/sandbox"]
    /\ arguments inv = []
    /\ (operator w (length (prompts w) + 5) (EnvironmentVariable "FMP_API_KEY") = true ->
        exists v, environ w !! "FMP_API_KEY" = Some v /\ v <> ""
                  /\ In ("FMP_API_KEY=" +:+ v) (env_vars inv))
    /\ ((forall i p, i < 5 -> stock_runtime_perms !! i = Some p ->
                     operator w (length (prompts w) + i) p = true) ->
        In "ALLOWED_EGRESS=financialmodelingprep.com:443,host.docker.internal:8080,pypi.org:443,files.pythonhosted.org:443,127.0.0.1:8080"
           (env_vars inv)).
Proof.
  intros Hkey Hpath Hvalid.
  rewrite (stock_factory_past_checks sp rp name w Hkey Hpath),
    (init_valid (stock_manifest rp) _ _ _ _ _ _ _ Hvalid).
  do 2 eexists. split; [reflexivity|].
  split; [cbn [args built]; apply docker_run_build_args|].
  cbn [mounts env_vars arguments positional]. split.
  { assert (fs_mounts (consented_of w stock_runtime_perms) = []) as ->.
    { destruct (fs_mounts _) as [|m l] eqn:E; [reflexivity|].
      assert (In m (m :: l)) as Hin by now left. rewrite <- E in Hin.
      apply In_fs_mounts in Hin as (path & cp & r & wr & Hp & _).
      apply granted_In in Hp. exfalso. cbn in Hp.
      repeat (destruct Hp as [Hp|Hp]; [discriminate|]). destruct Hp. }
    reflexivity. }
  split; [reflexivity|]. split.
  - intros Hop. apply env_truthy_value in Hkey as (v & Hv & Hne).
    exists v. split; [assumption|]. split; [assumption|].
    right. rewrite !in_app_iff. right. left.
    apply In_passed_envs. exists "FMP_API_KEY". split.
    + apply consented_of_lookup. exists 5. split; [reflexivity|assumption].
    + now rewrite Hv.
  - intros Hnet. right. rewrite !in_app_iff. left.
    unfold consented_of, stock_runtime_perms. cbn [granted].
    pose proof (Hnet 0 _ ltac:(lia) eq_refl) as H0.
    pose proof (Hnet 1 _ ltac:(lia) eq_refl) as H1.
    pose proof (Hnet 2 _ ltac:(lia) eq_refl) as H2.
    pose proof (Hnet 3 _ ltac:(lia) eq_refl) as H3.
    pose proof (Hnet 4 _ ltac:(lia) eq_refl) as H4.
    rewrite Nat.add_0_r in H0.
    rewrite !Nat.add_succ_r, Nat.add_0_r in H1.
    rewrite !Nat.add_succ_r, Nat.add_0_r in H2.
    rewrite !Nat.add_succ_r, Nat.add_0_r in H3.
    rewrite !Nat.add_succ_r, Nat.add_0_r in H4.
    rewrite H0, H1, H2, H3, H4.
    clear H0 H1 H2 H3 H4.
    destruct (operator w _ (EnvironmentVariable "FMP_API_KEY")); now left.
Qed.

Lemma stock_factory_builds_witness :
  let sp := "/opt/spendwise/mcp-server-stock" in
  let w := host fmp_env {[sp]} allow_all in
  env_truthy (environ w) "FMP_API_KEY" = true
  /\ sp ∈ paths w
  /\ exists srv inv,
    create_stock_mcp_server sp sp "SpendWise Stock" w
    = (Return srv, with_prompts (prompts w ++ stock_runtime_perms) w)
    /\ docker_run (args srv) = Some inv
    /\ mounts inv = ["type=bind,src=" +:+ sp +:+ ",dst=/sandbox"]
    /\ arguments inv = []
    /\ (operator w (length (prompts w) + 5) (EnvironmentVariable "FMP_API_KEY") = true ->
        exists v, environ w !! "FMP_API_KEY" = Some v /\ v <> ""
                  /\ In ("FMP_API_KEY=" +:+ v) (env_vars inv))
    /\ ((forall i p, i < 5 -> stock_runtime_perms !! i = Some p ->
                     operator w (length (prompts w) + i) p = true) ->
        In "ALLOWED_EGRESS=financialmodelingprep.com:443,host.docker.internal:8080,pypi.org:443,files.pythonhosted.org:443,127.0.0.1:8080"
           (env_vars inv)).
Proof.
  intros sp w.
  assert (sp ∈ paths w) as Hpath by set_solver.
  split; [reflexivity|]. split; [exact Hpath|].
  refine (stock_factory_builds sp sp "SpendWise Stock" w eq_refl Hpath _).
  intros p Hp. cbn in Hp.
  repeat (destruct Hp as [<-|Hp]; [reflexivity|]). destruct Hp.
Defined.

(** ** The database factory *)

(** X11. When the directory of the database can be made and the request
    passes the validation, [create_sqlite_mcp_server] returns a server after
    a single consent request, for the parent directory of the resolved
    database path with write access exactly when [readonly] is false. If
    the request is granted the invocation has one mount, of that directory
    onto the same path in the container, marked [readonly] exactly when
    [readonly] is true; if it is denied the server is still built, with no
    mount. In both cases the sandbox gets no allow-list and no host
    variable, and the resolved database path is its only positional
    argument. The server bears the caller's name when that is a non-empty
    string; when no name is given it is named [SQLite (RO)] or
    [SQLite (RW)] after the access mode; when the caller passes the empty
    string the builder's own default applies, the manifest's name
    [SQLite MCP Server] followed by [ - ] and a generated identifier. *)
Theorem sqlite_factory_builds resolve parent mkdir_parents db_path readonly name w w1 :
  mkdir_parents (parent (resolve w db_path)) w = (None, w1) ->
  validate_with_manifest_perms
    (FSAccess (parent (resolve w db_path)) None true (negb readonly))
    [MCP_AC_FILESYSTEM_READ; MCP_AC_FILESYSTEM_WRITE] = true ->
  let db_dir := parent (resolve w db_path) in
  let request := FSAccess db_dir None true (negb readonly) in
  exists srv inv,
    create_sqlite_mcp_server resolve parent mkdir_parents db_path readonly name w
    = (Constructed (Return srv), with_prompts (prompts w1 ++ [request]) w1)
    /\ docker_run (args srv) = Some inv
    /\ mounts inv
       = (if operator w1 (length (prompts w1)) request
          then ["type=bind,src=" +:+ db_dir +:+ ",dst=" +:+ db_dir
                +:+ (if readonly then ",readonly" else "")]
          else [])
    /\ env_vars inv = ["PACKAGE=mcp-server-sqlite-npx"]
    /\ arguments inv = [resolve w db_path]
    /\ server_name srv
       = match name with
         | None => if readonly then "SQLite (RO)" else "SQLite (RW)"
         | Some n => if String.eqb n "" then "SQLite MCP Server - " +:+ fresh_id w1
                     else n
         end.
Proof.
  intros Hmk Hvalid db_dir request.
  unfold create_sqlite_mcp_server. rewrite Hmk. fold db_dir. fold request.
  rewrite (init_valid sqlite_manifest)
    by (intros p [<-|[]]; exact Hvalid).
  do 2 eexists. split; [reflexivity|].
  split; [cbn [args built]; apply docker_run_build_args|].
  cbn [mounts env_vars arguments positional dev_mounts dev_envs sqlite_manifest
       static_envs map server_name built].
  unfold consented_of. cbn [granted]. fold request.
  destruct (operator w1 (length (prompts w1)) request).
  - split; [destruct readonly; reflexivity|].
    split; [reflexivity|]. split; [reflexivity|].
    destruct name as [n|]; [|destruct readonly; reflexivity].
    cbn [or_else]. destruct (String.eqb n ""); reflexivity.
  - split; [reflexivity|].
    split; [reflexivity|]. split; [reflexivity|].
    destruct name as [n|]; [|destruct readonly; reflexivity].
    cbn [or_else]. destruct (String.eqb n ""); reflexivity.
Qed.

(** The read-only server of [api/main.py] on a host where the directory can
    be made. *)
Lemma sqlite_factory_builds_witness :
  let w := host ∅ ∅ allow_all in
  let db_dir := parent_of_example (resolve_id w "/data/spendwise.db") in
  let request := FSAccess db_dir None true (negb true) in
  let w1 := with_paths ({[db_dir]} ∪ paths w) w in
  mkdir_ok (parent_of_example (resolve_id w "/data/spendwise.db")) w = (None, w1)
  /\ validate_with_manifest_perms request
       [MCP_AC_FILESYSTEM_READ; MCP_AC_FILESYSTEM_WRITE] = true
  /\ exists srv inv,
    create_sqlite_mcp_server resolve_id parent_of_example mkdir_ok
      "/data/spendwise.db" true (Some "SQLite (RO)") w
    = (Constructed (Return srv), with_prompts (prompts w1 ++ [request]) w1)
    /\ docker_run (args srv) = Some inv
    /\ mounts inv
       = (if operator w1 (length (prompts w1)) request
          then ["type=bind,src=" +:+ db_dir +:+ ",dst=" +:+ db_dir
                +:+ (if true then ",readonly" else "")]
          else [])
    /\ env_vars inv = ["PACKAGE=mcp-server-sqlite-npx"]
    /\ arguments inv = [resolve_id w "/data/spendwise.db"]
    /\ server_name srv
       = match Some "SQLite (RO)" with
         | None => if true then "SQLite (RO)" else "SQLite (RW)"
         | Some n => if String.eqb n "" then "SQLite MCP Server - " +:+ fresh_id w1
                     else n
         end.
Proof.
  intros w db_dir request w1. split; [reflexivity|]. split; [reflexivity|].
  exact (sqlite_factory_builds resolve_id parent_of_example mkdir_ok
           "/data/spendwise.db" true (Some "SQLite (RO)") w w1 eq_refl eq_refl).
Defined.

(** The two servers of [api/main.py]: the same directory, read-only for the
    one and writable for the other. *)
Example sqlite_ro_and_rw :
  let run readonly :=
    match fst (create_sqlite_mcp_server resolve_id parent_of_example mkdir_ok
                 "/data/spendwise.db" readonly None (host ∅ ∅ allow_all)) with
    | Constructed (Return srv) => Some (server_name srv, args srv)
    | _ => None
    end in
  run true
  = Some ("SQLite (RO)",
          ["run"; "--rm"; "-i"; "--cap-add=NET_ADMIN";
           "-e"; "PACKAGE=mcp-server-sqlite-npx";
           "--mount"; "type=bind,src=/data,dst=/data,readonly";
           "ghcr.io/guardiagent/mcp-sandbox-npm:latest"; "/data/spendwise.db"])
  /\ run false
     = Some ("SQLite (RW)",
             ["run"; "--rm"; "-i"; "--cap-add=NET_ADMIN";
              "-e"; "PACKAGE=mcp-server-sqlite-npx";
              "--mount"; "type=bind,src=/data,dst=/data";
              "ghcr.io/guardiagent/mcp-sandbox-npm:latest"; "/data/spendwise.db"]).
Proof. split; vm_compute; reflexivity. Qed.

(** When the directory cannot be made the factory stops there: nothing is
    asked and nothing is built. *)
Example sqlite_mkdir_denied :
  create_sqlite_mcp_server resolve_id parent_of_example mkdir_denied
    "/data/spendwise.db" false None (host ∅ ∅ allow_all)
  = (MkdirError "[Errno 13] Permission denied: '/data'", host ∅ ∅ allow_all).
Proof. reflexivity. Qed.
